(** * ecs-preview: the [app init], [env init] and [app deploy] workflows

    A shallow embedding of the command workflows of
    [internal/pkg/cli] ([app_init.go], [app_deploy.go] and the
    [env init] command that follows it in the same source file).

    The commands drive their collaborators (metadata store, workspace,
    CloudFormation clients, docker, prompts, spinner) through Go
    interfaces.  A workflow is embedded as a computation in a small monad
    that
      - threads the receiver struct ([o *initAppOpts], ...) and the state
        of the collaborators,
      - logs every call made on a collaborator together with its answer,
      - can panic (nil pointer dereference).
    Terminal output through package [log] and the text handed to the
    spinner are not part of the model. *)

From Stdlib Require Import String Ascii List Bool Arith ZArith Lia.
Import ListNotations.
Local Open Scope string_scope.

(* ================================================================== *)
(** ** Go errors *)

(** The error values the workflows build or inspect.  [fmt_Errorf_w text e]
    is [fmt.Errorf(text + "%w", e)], whose [Unwrap] gives back [e];
    [errors_New] is any leaf error of a type the workflows do not look
    for. *)
#[warnings="-register-all"]
Inductive error : Type :=
| errors_New (text : string)
| fmt_Errorf_w (text : string) (err : error)
| ErrStackAlreadyExists (stackName : string) (parentErr : option error)
| ErrNoSuchApplication (ProjectName ApplicationName : string).

(** The two target types handed to [errors.As]. *)
Inductive errTarget := asErrStackAlreadyExists | asErrNoSuchApplication.

(** Whether an error value is of the target type. *)
Definition is_a (t : errTarget) (e : error) : bool :=
  match t, e with
  | asErrStackAlreadyExists, ErrStackAlreadyExists _ _ => true
  | asErrNoSuchApplication, ErrNoSuchApplication _ _ => true
  | _, _ => false
  end.

Definition Unwrap (e : error) : option error :=
  match e with
  | fmt_Errorf_w _ e' => Some e'
  | ErrStackAlreadyExists _ p => p
  | _ => None
  end.

(** [errors.As]: walk the [Unwrap] chain until an error of the target
    type is found. *)
Fixpoint chain_As (e : error) (t : errTarget) : bool :=
  match e with
  | errors_New _ => false
  | fmt_Errorf_w _ e' => chain_As e' t
  | ErrStackAlreadyExists _ p =>
      match t with
      | asErrStackAlreadyExists => true
      | asErrNoSuchApplication =>
          match p with Some e' => chain_As e' t | None => false end
      end
  | ErrNoSuchApplication _ _ =>
      match t with
      | asErrNoSuchApplication => true
      | asErrStackAlreadyExists => false
      end
  end.

Definition errors_As (err : option error) (t : errTarget) : bool :=
  match err with
  | None => false
  | Some e => chain_As e t
  end.

(** A Go [(T, error)] pair under the usual convention. *)
Inductive result (T : Type) : Type :=
| Ok (t : T)
| Fail (err : error).
Arguments Ok {T} t.
Arguments Fail {T} err.

(* ================================================================== *)
(** ** Data model (package [archer], [deploy], [identity]) *)

(** Modelled from the spec: [archer.Project] is declared outside the given
    sources; its data model is name, account ID, optional DNS domain and
    the flag [RequiresDNSDelegation]. *)
Record Project := mkProject {
  proj_Name : string;
  proj_AccountID : string;
  proj_Domain : string;
  RequiresDNSDelegation : bool
}.

Record Environment := mkEnvironment {
  env_Project : string;
  env_Name : string;
  env_Region : string;
  env_AccountID : string;
  env_Prod : bool;
  env_ManagerRoleARN : string;
  env_ExecutionRoleARN : string
}.

Record Application := mkApplication {
  app_Project : string;
  app_Name : string;
  app_Type : string
}.

Record Caller := mkCaller {
  Account : string;
  RootUserARN : string
}.

Record CreateEnvironmentInput := mkCreateEnvironmentInput {
  in_Name : string;
  in_Project : string;
  in_Prod : bool;
  in_PublicLoadBalancer : bool;
  in_ToolsAccountPrincipalARN : string;
  in_ProjectDNSName : string
}.

(** [resp.Env] is a pointer and [resp.Err] an error: both can be nil. *)
Record CreateEnvironmentResponse := mkCreateEnvironmentResponse {
  resp_Env : option Environment;
  resp_Err : option error
}.

Record Resource := mkResource {
  LogicalName : string;
  res_Type : string
}.

Record ResourceEvent := mkResourceEvent {
  ev_Resource : Resource;
  ev_Status : string;
  ev_StatusReason : string
}.

Record LBFargateManifestProps := mkLBFargateManifestProps {
  mp_AppName : string;
  mp_Dockerfile : string;
  mp_Path : string
}.

Record Auth := mkAuth {
  Username : string;
  Password : string
}.

(** [GlobalOpts] is embedded in every options struct.  Its field
    [projectName] and the answer of its method [ProjectName()] are kept
    apart: the method's body lies outside the given sources. *)
Record GlobalOpts := mkGlobalOpts {
  projectName : string;
  ProjectName : string
}.

(* ================================================================== *)
(** ** The workflow monad *)

Section Workflow.
(** [event]: the calls logged; [O]: the receiver struct; [W]: the state
    of the collaborators. *)
Context {event O W : Type}.

Record st := St { self : O; world : W }.

(** [None] as answer is a panic. *)
Definition M (A : Type) : Type := st -> option A * st * list event.

Definition ret {A} (a : A) : M A := fun s => (Some a, s, []).

Definition bind {A B} (m : M A) (k : A -> M B) : M B :=
  fun s =>
    match m s with
    | (Some a, s1, l1) =>
        match k a s1 with
        | (b, s2, l2) => (b, s2, (l1 ++ l2)%list)
        end
    | (None, s1, l1) => (None, s1, l1)
    end.

Definition panic {A} : M A := fun s => (None, s, []).

(** Read and update the receiver. *)
Definition this : M O := fun s => (Some (self s), s, []).
Definition assign (f : O -> O) : M unit :=
  fun s => (Some tt, St (f (self s)) (world s), []).

(** Call a collaborator and log the call with its answer. *)
Definition invoke {R} (f : W -> R * W) (ev : R -> event) : M R :=
  fun s =>
    match f (world s) with
    | (r, w') => (Some r, St (self s) w', [ev r])
    end.

(** A call that answers nothing and leaves the collaborators alone
    (the spinner). *)
Definition emit (e : event) : M unit := fun s => (Some tt, s, [e]).

(** [xs[i]]: out of range is a run-time panic. *)
Definition index {A} (xs : list A) (i : nat) : M A :=
  match nth_error xs i with
  | Some a => fun s => (Some a, s, [])
  | None => fun s => (None, s, [])
  end.

(** Dereference a pointer. *)
Definition deref {A} (p : option A) : M A :=
  match p with
  | Some a => ret a
  | None => panic
  end.

(** [for _, x := range xs { body x }] *)
Fixpoint range {A} (xs : list A) (body : A -> M unit) : M unit :=
  match xs with
  | [] => ret tt
  | x :: xs' => bind (body x) (fun _ => range xs' body)
  end.
End Workflow.

Arguments st : clear implicits.
Arguments M : clear implicits.

Declare Scope wf_scope.
Delimit Scope wf_scope with wf.
Notation "x <- m ;; k" := (bind m (fun x => k))
  (at level 61, m at next level, right associativity) : wf_scope.
Notation "m ;; k" := (bind m (fun _ => k))
  (at level 61, right associativity) : wf_scope.

(** The log of a run, its answer and its final receiver. *)
Definition trace_of {event O W A} (r : option A * st O W * list event) :=
  snd r.
Definition answer_of {event O W A} (r : option A * st O W * list event) :=
  fst (fst r).
Definition self_of {event O W A} (r : option A * st O W * list event) :=
  self (snd (fst r)).

Local Open Scope wf_scope.

(* ================================================================== *)
(** ** [app init] (app_init.go) *)

Module AppInit.

Record initAppOpts := mkInitAppOpts {
  globalOpts : GlobalOpts;
  AppType : string;
  AppName : string;
  DockerfilePath : string;
  (* Caches variables *)
  proj : option Project;
  (* Outputs stored on successful actions. *)
  manifestPath : string
}.

Definition set_proj (p : option Project) (o : initAppOpts) : initAppOpts :=
  mkInitAppOpts (globalOpts o) (AppType o) (AppName o) (DockerfilePath o)
                p (manifestPath o).

Definition set_manifestPath (m : string) (o : initAppOpts) : initAppOpts :=
  mkInitAppOpts (globalOpts o) (AppType o) (AppName o) (DockerfilePath o)
                (proj o) m.

(** The calls [Execute] makes on its collaborators.  The manifest built
    by [manifest.NewLoadBalancedFargateManifest(props)] is represented by
    [props]. *)
Inductive event : Type :=
| EvGetApplication (projectName appName : string) (r : result Application)
| EvGetProject (name : string) (r : result Project)
| EvWriteAppManifest (props : LBFargateManifestProps) (appName : string)
                     (r : result string)
| EvGetwd (r : result string)
| EvProgStart
| EvProgStop
| EvAddAppToProject (p : option Project) (appName : string)
                    (r : option error)
| EvCreateApplication (app : Application) (r : option error).

(** The interfaces of [initAppOpts], over a collaborator state [W]. *)
Record deps (W : Type) := mkDeps {
  appStore_GetApplication : string -> string -> W -> result Application * W;
  appStore_CreateApplication : Application -> W -> option error * W;
  projGetter_GetProject : string -> W -> result Project * W;
  ws_WriteAppManifest :
    LBFargateManifestProps -> string -> W -> result string * W;
  os_Getwd : W -> result string * W;
  filepath_Rel : string -> string -> result string;
  projDeployer_AddAppToProject :
    option Project -> string -> W -> option error * W
}.
Arguments appStore_GetApplication {W}.
Arguments appStore_CreateApplication {W}.
Arguments projGetter_GetProject {W}.
Arguments ws_WriteAppManifest {W}.
Arguments os_Getwd {W}.
Arguments filepath_Rel {W}.
Arguments projDeployer_AddAppToProject {W}.

(** The calls that write: the manifest file, the project's stack set,
    the application record. *)
Definition writes (e : event) : bool :=
  match e with
  | EvWriteAppManifest _ _ _ => true
  | EvAddAppToProject _ _ _ => true
  | EvCreateApplication _ _ => true
  | _ => false
  end.

Section Methods.
Context {W : Type} (d : deps W).
Local Abbreviation M := (M event initAppOpts W).

Definition ensureNoExistingApp (projectName appName : string)
  : M (option error) :=
  o <- this ;;
  r <- invoke (appStore_GetApplication d projectName (AppName o))
              (EvGetApplication projectName (AppName o)) ;;
  let err := match r with Ok _ => None | Fail e => Some e end in
  (* If the app doesn't exist - that's perfect, return no error. *)
  if errors_As err asErrNoSuchApplication then ret None
  else
    match err with
    | None =>
        (* we were able to fetch an existing app *)
        ret (Some (errors_New
               ("application " ++ appName ++
                " already exists under project " ++ projectName)))
    | Some e =>
        (* there was an error calling the store *)
        ret (Some (fmt_Errorf_w
               ("couldn't check if application " ++ appName ++
                " exists in project " ++ projectName ++ ": ") e))
    end.

Definition createManifest : M (result string) :=
  o <- this ;;
  let props := mkLBFargateManifestProps (AppName o) (DockerfilePath o)
                                        (AppName o) in
  r <- invoke (ws_WriteAppManifest d props (AppName o))
              (EvWriteAppManifest props (AppName o)) ;;
  match r with
  | Fail err => ret (Fail err)
  | Ok manifestPath =>
      r <- invoke (os_Getwd d) EvGetwd ;;
      match r with
      | Fail err =>
          ret (Fail (fmt_Errorf_w "get working directory: " err))
      | Ok wkdir =>
          match filepath_Rel d wkdir manifestPath with
          | Fail err =>
              ret (Fail (fmt_Errorf_w
                           "relative path of manifest file: " err))
          | Ok relPath => ret (Ok relPath)
          end
      end
  end.

Definition createAppInProject (projectName : string)
  : M (option error) :=
  o <- this ;;
  let app := mkApplication projectName (AppName o) (AppType o) in
  err <- invoke (appStore_CreateApplication d app)
                (EvCreateApplication app) ;;
  match err with
  | Some e =>
      ret (Some (fmt_Errorf_w
                   ("saving application " ++ AppName o ++ ": ") e))
  | None => ret None
  end.

(** Execute writes the application's manifest file and stores the
    application in SSM. *)
Definition Execute : M (option error) :=
  o <- this ;;
  err <- ensureNoExistingApp (ProjectName (globalOpts o)) (AppName o) ;;
  match err with
  | Some e => ret (Some e)
  | None =>
      r <- invoke (projGetter_GetProject d (ProjectName (globalOpts o)))
                  (EvGetProject (ProjectName (globalOpts o))) ;;
      match r with
      | Fail err =>
          ret (Some (fmt_Errorf_w
                 ("get project " ++ ProjectName (globalOpts o) ++ ": ")
                 err))
      | Ok p =>
          assign (set_proj (Some p)) ;;
          r <- createManifest ;;
          match r with
          | Fail err => ret (Some err)
          | Ok path =>
              assign (set_manifestPath path) ;;
              emit EvProgStart ;;
              o <- this ;;
              err <- invoke
                       (projDeployer_AddAppToProject d (proj o) (AppName o))
                       (EvAddAppToProject (proj o) (AppName o)) ;;
              match err with
              | Some e =>
                  emit EvProgStop ;;
                  ret (Some (fmt_Errorf_w
                         ("add app " ++ AppName o ++ " to project " ++
                          ProjectName (globalOpts o) ++ ": ") e))
              | None =>
                  emit EvProgStop ;;
                  createAppInProject (ProjectName (globalOpts o))
              end
          end
      end
  end.
End Methods.
End AppInit.

(* ================================================================== *)
(** ** Package [strings] *)

Definition strings_HasPrefix (s prefix : string) : bool :=
  String.prefix prefix s.

Fixpoint strings_Contains (s substr : string) : bool :=
  String.prefix substr s ||
  match s with
  | EmptyString => false
  | String _ s' => strings_Contains s' substr
  end.

Definition strings_HasSuffix (s suffix : string) : bool :=
  (String.length suffix <=? String.length s)%nat &&
  (substring (String.length s - String.length suffix)
             (String.length suffix) s =? suffix).

Definition strings_TrimSuffix (s suffix : string) : string :=
  if strings_HasSuffix s suffix
  then substring 0 (String.length s - String.length suffix) s
  else s.

(* ================================================================== *)
(** ** [env init] (the second command of app_deploy.go) *)

Module EnvInit.

Record initEnvOpts := mkInitEnvOpts {
  globalOpts : GlobalOpts;
  EnvName : string;      (* Name of the environment. *)
  EnvProfile : string;   (* AWS profile used to create an environment. *)
  IsProduction : bool    (* Marks the environment as "production". *)
}.

(** The progress texts of the environment's resources; their
    declarations lie outside the given sources, the seven names are
    those used by [humanizeEnvironmentEvents]. *)
Inductive Text : Type :=
| textVPC
| textInternetGateway
| textPublicSubnets
| textPrivateSubnets
| textRouteTables
| textECSCluster
| textALB.

Definition Text_eqb (a b : Text) : bool :=
  match a, b with
  | textVPC, textVPC
  | textInternetGateway, textInternetGateway
  | textPublicSubnets, textPublicSubnets
  | textPrivateSubnets, textPrivateSubnets
  | textRouteTables, textRouteTables
  | textECSCluster, textECSCluster
  | textALB, textALB => true
  | _, _ => false
  end.

Definition ResourceMatcher : Type := Resource -> bool.

(** A Go map literal, kept as the list of its entries. *)
Fixpoint lookup {V} (m : list (Text * V)) (k : Text) : option V :=
  match m with
  | [] => None
  | (k', v) :: m' => if Text_eqb k k' then Some v else lookup m' k
  end.

Section Events.
(** [termprogress.TabRow] is declared outside the given sources. *)
Context {TabRow : Type}.

Inductive event : Type :=
| EvGetProject (name : string) (r : result Project)
| EvIdentityGet (r : result Caller)
| EvEnvIdentityGet (r : result Caller)
| EvProgStart
| EvProgStop
| EvProgEvents (rows : list TabRow)
| EvDelegateDNSPermissions (p : Project) (accountID : string)
                           (r : option error)
| EvDeployEnvironment (input : CreateEnvironmentInput) (r : option error)
| EvStreamEnvironmentCreation
    (input : CreateEnvironmentInput)
    (r : list (list ResourceEvent) * CreateEnvironmentResponse)
| EvAddEnvToProject (p : Project) (env : Environment) (r : option error)
| EvCreateEnvironment (env : Environment) (r : option error).
End Events.
Arguments event : clear implicits.

(** The interfaces of [initEnvOpts].  [StreamEnvironmentCreation] hands
    back two channels: the batches of events sent before the first is
    closed, and the one response read from the second. *)
Record deps (W : Type) := mkDeps {
  projectGetter_GetProject : string -> W -> result Project * W;
  envCreator_CreateEnvironment : Environment -> W -> option error * W;
  envDeployer_DeployEnvironment :
    CreateEnvironmentInput -> W -> option error * W;
  envDeployer_StreamEnvironmentCreation :
    CreateEnvironmentInput -> W ->
    (list (list ResourceEvent) * CreateEnvironmentResponse) * W;
  projDeployer_DelegateDNSPermissions :
    Project -> string -> W -> option error * W;
  projDeployer_AddEnvToProject :
    Project -> Environment -> W -> option error * W;
  identity_Get : W -> result Caller * W;
  envIdentity_Get : W -> result Caller * W
}.
Arguments projectGetter_GetProject {W}.
Arguments envCreator_CreateEnvironment {W}.
Arguments envDeployer_DeployEnvironment {W}.
Arguments envDeployer_StreamEnvironmentCreation {W}.
Arguments projDeployer_DelegateDNSPermissions {W}.
Arguments projDeployer_AddEnvToProject {W}.
Arguments identity_Get {W}.
Arguments envIdentity_Get {W}.

(** The matcher table of [humanizeEnvironmentEvents]. *)
Definition matcher : list (Text * ResourceMatcher) :=
  [ (textVPC, fun event => res_Type event =? "AWS::EC2::VPC");
    (textInternetGateway, fun event =>
       (res_Type event =? "AWS::EC2::InternetGateway") ||
       (res_Type event =? "AWS::EC2::VPCGatewayAttachment"));
    (textPublicSubnets, fun event =>
       (res_Type event =? "AWS::EC2::Subnet") &&
       strings_HasPrefix (LogicalName event) "Public");
    (textPrivateSubnets, fun event =>
       (res_Type event =? "AWS::EC2::Subnet") &&
       strings_HasPrefix (LogicalName event) "Private");
    (textRouteTables, fun event =>
       strings_Contains (LogicalName event) "Route");
    (textECSCluster, fun event => res_Type event =? "AWS::ECS::Cluster");
    (textALB, fun event =>
       strings_Contains (LogicalName event) "LoadBalancer" ||
       strings_Contains (res_Type event) "ElasticLoadBalancingV2") ].

(** The expected number of resources of each text. *)
Definition resourceCounts : list (Text * Z) :=
  [ (textVPC, 1%Z);
    (textInternetGateway, 2%Z);
    (textPublicSubnets, 2%Z);
    (textPrivateSubnets, 2%Z);
    (textRouteTables, 4%Z);
    (textECSCluster, 1%Z);
    (textALB, 4%Z) ].

Section Methods.
Context {W TabRow : Type} (d : deps W).
(** [termprogress.HumanizeResourceEvents] and the package variable
    [envProgressOrder] are declared outside the given sources. *)
Variable HumanizeResourceEvents :
  list Text -> list ResourceEvent -> list (Text * ResourceMatcher) ->
  list (Text * Z) -> list TabRow.
Variable envProgressOrder : list Text.

Local Abbreviation M := (M (event TabRow) initEnvOpts W).

Definition humanizeEnvironmentEvents (resourceEvents : list ResourceEvent)
  : list TabRow :=
  HumanizeResourceEvents envProgressOrder resourceEvents matcher
                         resourceCounts.

Definition delegateDNSFromProject (project : Project)
  : M (option error) :=
  r <- invoke (envIdentity_Get d) EvEnvIdentityGet ;;
  match r with
  | Fail err =>
      ret (Some (fmt_Errorf_w
             "getting environment account ID for DNS Delegation: " err))
  | Ok envAccount =>
      (* By default, our DNS Delegation permits same account
         delegation. *)
      if Account envAccount =? proj_AccountID project then ret None
      else
        emit EvProgStart ;;
        err <- invoke (projDeployer_DelegateDNSPermissions d project
                         (Account envAccount))
                      (EvDelegateDNSPermissions project
                         (Account envAccount)) ;;
        match err with
        | Some e => emit EvProgStop ;; ret (Some e)
        | None => ret None
        end
  end.

(** Execute deploys a new environment with CloudFormation and adds it
    to SSM. *)
Definition Execute : M (option error) :=
  o <- this ;;
  r <- invoke (projectGetter_GetProject d (ProjectName (globalOpts o)))
              (EvGetProject (ProjectName (globalOpts o))) ;;
  match r with
  | Fail err =>
      (* Ensure the project actually exists before we do a
         deployment. *)
      ret (Some err)
  | Ok project =>
  r <- invoke (identity_Get d) EvIdentityGet ;;
  match r with
  | Fail err => ret (Some (fmt_Errorf_w "get identity: " err))
  | Ok caller =>
  (* 1. Start creating the CloudFormation stack for the environment. *)
  let deployEnvInput :=
    mkCreateEnvironmentInput (EnvName o) (ProjectName (globalOpts o))
      (IsProduction o) true (RootUserARN caller) (proj_Domain project) in
  dns <- (if RequiresDNSDelegation project
          then delegateDNSFromProject project
          else ret None) ;;
  match dns with
  | Some err => ret (Some (fmt_Errorf_w "granting DNS permissions: " err))
  | None =>
  emit EvProgStart ;;
  err <- invoke (envDeployer_DeployEnvironment d deployEnvInput)
                (EvDeployEnvironment deployEnvInput) ;;
  match err with
  | Some err =>
      if errors_As (Some err) asErrStackAlreadyExists then
        (* Do nothing if the stack already exists. *)
        emit EvProgStop ;;
        ret None
      else
        emit EvProgStop ;;
        ret (Some err)
  | None =>
  (* 2. Display updates while the deployment is happening. *)
  emit EvProgStart ;;
  chans <- invoke (envDeployer_StreamEnvironmentCreation d deployEnvInput)
                  (EvStreamEnvironmentCreation deployEnvInput) ;;
  range (fst chans)
        (fun stackEvent =>
           emit (EvProgEvents (humanizeEnvironmentEvents stackEvent))) ;;
  let resp := snd chans in
  match resp_Err resp with
  | Some err => emit EvProgStop ;; ret (Some err)
  | None =>
  emit EvProgStop ;;
  (* 3. Add the stack set instance to the project stackset. *)
  env <- deref (resp_Env resp) ;;
  emit EvProgStart ;;
  err <- invoke (projDeployer_AddEnvToProject d project env)
                (EvAddEnvToProject project env) ;;
  match err with
  | Some err =>
      emit EvProgStop ;;
      ret (Some (fmt_Errorf_w
             ("deploy env " ++ env_Name env ++ " to project " ++
              proj_Name project ++ ": ") err))
  | None =>
  emit EvProgStop ;;
  (* 4. Store the environment in SSM. *)
  err <- invoke (envCreator_CreateEnvironment d env)
                (EvCreateEnvironment env) ;;
  match err with
  | Some err => ret (Some (fmt_Errorf_w "store environment: " err))
  | None => ret None
  end end end end end end end.
End Methods.
End EnvInit.

(* ================================================================== *)
(** ** Package [uuid] *)

(** A [uuid.UUID] is an array of 16 bytes; [String()] prints it in
    lower-case hexadecimal as xxxxxxxx-xxxx-xxxx-xxxx-xxxxxxxxxxxx. *)
Definition UUID : Type :=
  { bytes : list Byte.byte | (List.length bytes =? 16)%nat = true }.

Definition uuid_bytes (uuid : UUID) : list Byte.byte := proj1_sig uuid.

Definition hexdigit (n : N) : ascii :=
  match n with
  | 0%N => "0" | 1%N => "1" | 2%N => "2" | 3%N => "3"
  | 4%N => "4" | 5%N => "5" | 6%N => "6" | 7%N => "7"
  | 8%N => "8" | 9%N => "9" | 10%N => "a" | 11%N => "b"
  | 12%N => "c" | 13%N => "d" | 14%N => "e" | _ => "f"
  end%char.

(** [hex.Encode] *)
Fixpoint hex_Encode (src : list Byte.byte) : string :=
  match src with
  | [] => EmptyString
  | b :: src' =>
      String (hexdigit (Byte.to_N b / 16))
        (String (hexdigit (Byte.to_N b mod 16)) (hex_Encode src'))
  end.

(** [hex.Decode] of one byte: the value of a hexadecimal digit, and the
    byte two digits stand for. *)
Definition hexval (c : ascii) : N :=
  match c with
  | "0" => 0 | "1" => 1 | "2" => 2 | "3" => 3 | "4" => 4
  | "5" => 5 | "6" => 6 | "7" => 7 | "8" => 8 | "9" => 9
  | "a" => 10 | "b" => 11 | "c" => 12 | "d" => 13 | "e" => 14
  | _ => 15
  end%char%N.

Definition unhex (hi lo : ascii) : option Byte.byte :=
  Byte.of_N (hexval hi * 16 + hexval lo).

Definition slice {A} (l : list A) (lo hi : nat) : list A :=
  firstn (hi - lo) (skipn lo l).

Definition uuid_String (uuid : UUID) : string :=
  hex_Encode (slice (uuid_bytes uuid) 0 4) ++ "-" ++
  hex_Encode (slice (uuid_bytes uuid) 4 6) ++ "-" ++
  hex_Encode (slice (uuid_bytes uuid) 6 8) ++ "-" ++
  hex_Encode (slice (uuid_bytes uuid) 8 10) ++ "-" ++
  hex_Encode (slice (uuid_bytes uuid) 10 16).

(* ================================================================== *)
(** ** [app deploy] (app_deploy.go) *)

Module AppDeploy.

(** A credential session, as handed out by the session provider. *)
Inductive Session := session (handle : string).

Inductive TagKey := ProjectTagKey | EnvTagKey | AppTagKey.

Record appDeployOpts := mkAppDeployOpts {
  globalOpts : GlobalOpts;
  AppName : string;
  EnvName : string;
  ImageTag : string;
  (* the clients, each built from the session it talks through *)
  ecrService : option Session;
  appPackageCfClient : option Session;
  appDeployCfClient : option Session;
  targetEnvironment : option Environment
}.

Definition set_AppName (v : string) (o : appDeployOpts) :=
  mkAppDeployOpts (globalOpts o) v (EnvName o) (ImageTag o) (ecrService o)
    (appPackageCfClient o) (appDeployCfClient o) (targetEnvironment o).
Definition set_EnvName (v : string) (o : appDeployOpts) :=
  mkAppDeployOpts (globalOpts o) (AppName o) v (ImageTag o) (ecrService o)
    (appPackageCfClient o) (appDeployCfClient o) (targetEnvironment o).
Definition set_ImageTag (v : string) (o : appDeployOpts) :=
  mkAppDeployOpts (globalOpts o) (AppName o) (EnvName o) v (ecrService o)
    (appPackageCfClient o) (appDeployCfClient o) (targetEnvironment o).
Definition set_ecrService (v : option Session) (o : appDeployOpts) :=
  mkAppDeployOpts (globalOpts o) (AppName o) (EnvName o) (ImageTag o) v
    (appPackageCfClient o) (appDeployCfClient o) (targetEnvironment o).
Definition set_appPackageCfClient (v : option Session)
           (o : appDeployOpts) :=
  mkAppDeployOpts (globalOpts o) (AppName o) (EnvName o) (ImageTag o)
    (ecrService o) v (appDeployCfClient o) (targetEnvironment o).
Definition set_appDeployCfClient (v : option Session)
           (o : appDeployOpts) :=
  mkAppDeployOpts (globalOpts o) (AppName o) (EnvName o) (ImageTag o)
    (ecrService o) (appPackageCfClient o) v (targetEnvironment o).
Definition set_targetEnvironment (v : option Environment)
           (o : appDeployOpts) :=
  mkAppDeployOpts (globalOpts o) (AppName o) (EnvName o) (ImageTag o)
    (ecrService o) (appPackageCfClient o) (appDeployCfClient o) v.

(** The parameters [getAppDeployTemplate] hands to the packaging
    command. *)
Record packageAppVars := mkPackageAppVars {
  pkg_AppName : string;
  pkg_EnvName : string;
  pkg_Tag : string
}.

Inductive event : Type :=
(* Ask *)
| EvAppNames (r : result (list string))
| EvListEnvironments (projectName : string) (r : result (list Environment))
| EvSelectOne (message help : string) (options : list string)
              (r : result string)
| EvGetVersionTag (r : result string)
| EvPromptGet (message help : string) (r : result string)
(* Execute *)
| EvGetEnvironment (projectName envName : string) (r : result Environment)
| EvDefaultWithRegion (region : string) (r : result Session)
| EvFromRole (roleARN region : string) (r : result Session)
| EvDefault (r : result Session)
| EvGetRepository (client : Session) (repoName : string) (r : result string)
| EvReadAppManifest (appName : string) (r : result string)
| EvBuild (uri tag path : string) (r : option error)
| EvGetECRAuth (client : Session) (r : result Auth)
| EvLogin (uri username password : string)
| EvPush (uri tag : string) (r : option error)
| EvPackageApp (vars : packageAppVars) (describer : option Session)
               (r : string * option error)
| EvNewRandom (r : result UUID)
| EvSpinnerStart
| EvSpinnerStop
| EvDeployApp (client : Session)
              (template stackName changeSetName cfExecutionRole : string)
              (tags : list (TagKey * string)) (r : option error)
| EvNewWebAppDescriber (projectName appName : string) (r : result unit)
| EvURI (projectName appName envName : string) (r : result string).

(** The interfaces of [appDeployOpts] and the package-level functions
    [Execute] and [Ask] call.  [packageApp_Execute] is the packaging
    command run in-process: it answers what it wrote to its stack
    writer, and its error.  [UnmarshalApp] gives the unmarshalled
    manifest as the path its [DockerfilePath()] answers.  The describer
    made by [NewWebAppDescriber] is known by the project and
    application it was made for. *)
Record deps (W : Type) := mkDeps {
  workspaceService_AppNames : W -> result (list string) * W;
  workspaceService_ReadAppManifest : string -> W -> result string * W;
  projectService_ListEnvironments :
    string -> W -> result (list Environment) * W;
  projectService_GetEnvironment :
    string -> string -> W -> result Environment * W;
  prompt_SelectOne :
    string -> string -> list string -> W -> result string * W;
  prompt_Get : string -> string -> W -> result string * W;
  getVersionTag : W -> result string * W;
  sessProvider_DefaultWithRegion : string -> W -> result Session * W;
  sessProvider_FromRole : string -> string -> W -> result Session * W;
  sessProvider_Default : W -> result Session * W;
  ecrService_GetRepository : Session -> string -> W -> result string * W;
  ecrService_GetECRAuth : Session -> W -> result Auth * W;
  dockerService_Build : string -> string -> string -> W -> option error * W;
  dockerService_Login : string -> string -> string -> W -> unit * W;
  dockerService_Push : string -> string -> W -> option error * W;
  packageApp_Execute :
    packageAppVars -> option Session -> W -> (string * option error) * W;
  uuid_NewRandom : W -> result UUID * W;
  appDeployCfClient_DeployApp :
    Session -> string -> string -> string -> string ->
    list (TagKey * string) -> W -> option error * W;
  describe_NewWebAppDescriber : string -> string -> W -> result unit * W;
  identifier_URI : string -> string -> string -> W -> result string * W;
  manifest_UnmarshalApp : string -> result string;
  stack_NameForApp : string -> string -> string -> string
}.
Arguments workspaceService_AppNames {W}.
Arguments workspaceService_ReadAppManifest {W}.
Arguments projectService_ListEnvironments {W}.
Arguments projectService_GetEnvironment {W}.
Arguments prompt_SelectOne {W}.
Arguments prompt_Get {W}.
Arguments getVersionTag {W}.
Arguments sessProvider_DefaultWithRegion {W}.
Arguments sessProvider_FromRole {W}.
Arguments sessProvider_Default {W}.
Arguments ecrService_GetRepository {W}.
Arguments ecrService_GetECRAuth {W}.
Arguments dockerService_Build {W}.
Arguments dockerService_Login {W}.
Arguments dockerService_Push {W}.
Arguments packageApp_Execute {W}.
Arguments uuid_NewRandom {W}.
Arguments appDeployCfClient_DeployApp {W}.
Arguments describe_NewWebAppDescriber {W}.
Arguments identifier_URI {W}.
Arguments manifest_UnmarshalApp {W}.
Arguments stack_NameForApp {W}.

Definition inputImageTagPrompt : string := "Input an image tag value:".

(** [fmt.Sprintf("%s-%s", stackName, id)] *)
Definition changeSetName (stackName : string) (id : UUID) : string :=
  stackName ++ "-" ++ uuid_String id.

Section Methods.
Context {W : Type} (d : deps W).
Local Abbreviation M := (M event appDeployOpts W).

Definition askAppName : M (option error) :=
  o <- this ;;
  if negb (AppName o =? "") then ret None
  else
    r <- invoke (workspaceService_AppNames d) EvAppNames ;;
    match r with
    | Fail err =>
        ret (Some (fmt_Errorf_w "list applications in workspace: " err))
    | Ok names =>
        if (List.length names =? 0)%nat then
          ret (Some (errors_New "no applications found in the workspace"))
        else if (List.length names =? 1)%nat then
          name <- index names 0 ;;
          assign (set_AppName name) ;;
          ret None
        else
          r <- invoke (prompt_SelectOne d "Select an application" "" names)
                      (EvSelectOne "Select an application" "" names) ;;
          match r with
          | Fail err => ret (Some (fmt_Errorf_w "select app name: " err))
          | Ok selectedAppName =>
              assign (set_AppName selectedAppName) ;;
              ret None
          end
    end.

Definition askEnvName : M (option error) :=
  o <- this ;;
  if negb (EnvName o =? "") then ret None
  else
    let project := ProjectName (globalOpts o) in
    r <- invoke (projectService_ListEnvironments d project)
                (EvListEnvironments project) ;;
    match r with
    | Fail err =>
        ret (Some (fmt_Errorf_w
               ("get environments for project " ++ project ++
                " from metadata store: ") err))
    | Ok envs =>
        if (List.length envs =? 0)%nat then
          ret (Some (errors_New
                 ("no environments found in project " ++ project)))
        else if (List.length envs =? 1)%nat then
          env <- index envs 0 ;;
          assign (set_EnvName (env_Name env)) ;;
          ret None
        else
          let names := map env_Name envs in
          r <- invoke (prompt_SelectOne d "Select an environment" "" names)
                      (EvSelectOne "Select an environment" "" names) ;;
          match r with
          | Fail err => ret (Some (fmt_Errorf_w "select env name: " err))
          | Ok selectedEnvName =>
              assign (set_EnvName selectedEnvName) ;;
              ret None
          end
    end.

Definition askImageTag : M (option error) :=
  o <- this ;;
  if negb (ImageTag o =? "") then ret None
  else
    r <- invoke (getVersionTag d) EvGetVersionTag ;;
    match r with
    | Ok tag =>
        assign (set_ImageTag tag) ;;
        ret None
    | Fail _ =>
        r <- invoke (prompt_Get d inputImageTagPrompt "")
                    (EvPromptGet inputImageTagPrompt "") ;;
        match r with
        | Fail err => ret (Some (fmt_Errorf_w "prompt for image tag: " err))
        | Ok userInputTag =>
            assign (set_ImageTag userInputTag) ;;
            ret None
        end
    end.

(** Ask prompts the user for any required fields that are not
    provided. *)
Definition Ask : M (option error) :=
  err <- askAppName ;;
  match err with
  | Some e => ret (Some e)
  | None =>
      err <- askEnvName ;;
      match err with
      | Some e => ret (Some e)
      | None =>
          err <- askImageTag ;;
          match err with
          | Some e => ret (Some e)
          | None => ret None
          end
      end
  end.

Definition targetEnv : M (result Environment) :=
  o <- this ;;
  r <- invoke (projectService_GetEnvironment d (ProjectName (globalOpts o))
                 (EnvName o))
              (EvGetEnvironment (ProjectName (globalOpts o)) (EnvName o)) ;;
  match r with
  | Fail err =>
      ret (Fail (fmt_Errorf_w
             ("get environment " ++ EnvName o ++
              " from metadata store: ") err))
  | Ok env => ret (Ok env)
  end.

Definition configureClients : M (option error) :=
  o <- this ;;
  target <- deref (targetEnvironment o) ;;
  r <- invoke (sessProvider_DefaultWithRegion d (env_Region target))
              (EvDefaultWithRegion (env_Region target)) ;;
  match r with
  | Fail err =>
      ret (Some (fmt_Errorf_w
             ("create ECR session with region " ++ env_Region target ++
              ": ") err))
  | Ok defaultSessEnvRegion =>
  r <- invoke (sessProvider_FromRole d (env_ManagerRoleARN target)
                 (env_Region target))
              (EvFromRole (env_ManagerRoleARN target) (env_Region target)) ;;
  match r with
  | Fail err =>
      ret (Some (fmt_Errorf_w "assuming environment manager role: " err))
  | Ok envSession =>
  (* ECR client against tools account profile AND target environment
     region *)
  assign (set_ecrService (Some defaultSessEnvRegion)) ;;
  (* app deploy CF client against env account profile AND target
     environment region *)
  assign (set_appDeployCfClient (Some envSession)) ;;
  (* app package CF client against tools account *)
  r <- invoke (sessProvider_Default d) EvDefault ;;
  match r with
  | Fail err =>
      ret (Some (fmt_Errorf_w "create app package CF session: " err))
  | Ok appPackageCfSess =>
      assign (set_appPackageCfClient (Some appPackageCfSess)) ;;
      ret None
  end end end.

Definition getAppDeployTemplate : M (string * option error) :=
  o <- this ;;
  target <- deref (targetEnvironment o) ;;
  let vars := mkPackageAppVars (AppName o) (env_Name target)
                               (ImageTag o) in
  out <- invoke (packageApp_Execute d vars (appPackageCfClient o))
                (EvPackageApp vars (appPackageCfClient o)) ;;
  match snd out with
  | Some err => ret ("", Some (fmt_Errorf_w "package application: " err))
  | None => ret (fst out, None)
  end.

Definition applyAppDeployTemplate
           (template stackName changeSetName cfExecutionRole : string)
           (tags : list (TagKey * string)) : M (option error) :=
  o <- this ;;
  client <- deref (appDeployCfClient o) ;;
  err <- invoke (appDeployCfClient_DeployApp d client template stackName
                   changeSetName cfExecutionRole tags)
                (EvDeployApp client template stackName changeSetName
                   cfExecutionRole tags) ;;
  match err with
  | Some e => ret (Some (fmt_Errorf_w "deploy application: " e))
  | None => ret None
  end.

Definition getAppDockerfilePath : M (result string) :=
  o <- this ;;
  r <- invoke (workspaceService_ReadAppManifest d (AppName o))
              (EvReadAppManifest (AppName o)) ;;
  match r with
  | Fail err =>
      ret (Fail (fmt_Errorf_w
             ("read manifest file " ++ AppName o ++ ": ") err))
  | Ok manifestBytes =>
      match manifest_UnmarshalApp d manifestBytes with
      | Fail err => ret (Fail (fmt_Errorf_w "unmarshal app manifest: " err))
      | Ok dockerfilePath =>
          ret (Ok (strings_TrimSuffix dockerfilePath "/Dockerfile"))
      end
  end.
(** Execute builds and pushes the container image for the
    application, then deploys it. *)
Definition Execute : M (option error) :=
  r <- targetEnv ;;
  match r with
  | Fail err => ret (Some err)
  | Ok env =>
  assign (set_targetEnvironment (Some env)) ;;
  err <- configureClients ;;
  match err with
  | Some err => ret (Some err)
  | None =>
  o <- this ;;
  let repoName := projectName (globalOpts o) ++ "/" ++ AppName o in
  ecr <- deref (ecrService o) ;;
  r <- invoke (ecrService_GetRepository d ecr repoName)
              (EvGetRepository ecr repoName) ;;
  match r with
  | Fail err => ret (Some (fmt_Errorf_w "get ECR repository URI: " err))
  | Ok uri =>
  r <- getAppDockerfilePath ;;
  match r with
  | Fail err => ret (Some err)
  | Ok appDockerfilePath =>
  err <- invoke (dockerService_Build d uri (ImageTag o) appDockerfilePath)
                (EvBuild uri (ImageTag o) appDockerfilePath) ;;
  match err with
  | Some err =>
      ret (Some (fmt_Errorf_w
             ("build Dockerfile at " ++ appDockerfilePath ++
              " with tag " ++ ImageTag o ++ ": ") err))
  | None =>
  r <- invoke (ecrService_GetECRAuth d ecr) (EvGetECRAuth ecr) ;;
  match r with
  | Fail err => ret (Some (fmt_Errorf_w "get ECR auth data: " err))
  | Ok auth =>
  invoke (dockerService_Login d uri (Username auth) (Password auth))
         (fun _ => EvLogin uri (Username auth) (Password auth)) ;;
  err <- invoke (dockerService_Push d uri (ImageTag o))
                (EvPush uri (ImageTag o)) ;;
  match err with
  | Some err => ret (Some err)
  | None =>
  (* [template, err := o.getAppDeployTemplate()]: this [err] is
     overwritten by the next statement before anything reads it. *)
  rendered <- getAppDeployTemplate ;;
  let template := fst rendered in
  r <- invoke (uuid_NewRandom d) EvNewRandom ;;
  match r with
  | Fail err =>
      ret (Some (fmt_Errorf_w
             "failed to generate random id for changeSet: " err))
  | Ok id =>
  o <- this ;;
  target <- deref (targetEnvironment o) ;;
  let stackName :=
    stack_NameForApp d (ProjectName (globalOpts o)) (env_Name target)
                     (AppName o) in
  let changeSet := changeSetName stackName id in
  emit EvSpinnerStart ;;
  (* TODO Use the Tags() method defined in
     deploy/cloudformation/stack/lb_fargate_app.go *)
  let tags := [ (ProjectTagKey, ProjectName (globalOpts o));
                (EnvTagKey, env_Name target);
                (AppTagKey, AppName o) ] in
  err <- applyAppDeployTemplate template stackName changeSet
           (env_ExecutionRoleARN target) tags ;;
  match err with
  | Some err =>
      emit EvSpinnerStop ;;
      ret (Some err)
  | None =>
  emit EvSpinnerStop ;;
  r <- invoke (describe_NewWebAppDescriber d (ProjectName (globalOpts o))
                 (AppName o))
              (EvNewWebAppDescriber (ProjectName (globalOpts o))
                 (AppName o)) ;;
  match r with
  | Fail err =>
      ret (Some (fmt_Errorf_w
             ("create identifier for application " ++ AppName o ++
              " in project " ++ ProjectName (globalOpts o) ++ ": ") err))
  | Ok _ =>
  r <- invoke (identifier_URI d (ProjectName (globalOpts o)) (AppName o)
                 (env_Name target))
              (EvURI (ProjectName (globalOpts o)) (AppName o)
                 (env_Name target)) ;;
  match r with
  | Fail err =>
      ret (Some (fmt_Errorf_w
             ("cannot retrieve the URI from environment " ++ EnvName o ++
              ": ") err))
  | Ok loadBalancerURI => ret None
  end end end end end end end end end end end.
End Methods.
End AppDeploy.

(* ================================================================== *)
(** ** Observations on logs *)

(** How often a kind of call occurs in a log. *)
Definition count {A} (P : A -> bool) (l : list A) : nat :=
  List.length (filter P l).

(** [precedes P Q l]: no [Q] call occurs in [l] before the first [P]
    call. *)
Fixpoint precedes {A} (P Q : A -> bool) (l : list A) : bool :=
  match l with
  | [] => true
  | e :: l' => if P e then true else negb (Q e) && precedes P Q l'
  end.

Module EnvObs.
Import EnvInit.
Section Kinds.
Context {TabRow : Type}.
Local Abbreviation event := (EnvInit.event TabRow).

Definition isDelegate (e : event) : bool :=
  match e with EvDelegateDNSPermissions _ _ _ => true | _ => false end.
Definition isEnvIdentity (e : event) : bool :=
  match e with EvEnvIdentityGet _ => true | _ => false end.
Definition isApply (e : event) : bool :=
  match e with EvDeployEnvironment _ _ => true | _ => false end.
Definition isStream (e : event) : bool :=
  match e with
  | EvStreamEnvironmentCreation _ _ => true
  | EvProgEvents _ => true
  | _ => false
  end.
Definition isLink (e : event) : bool :=
  match e with EvAddEnvToProject _ _ _ => true | _ => false end.
Definition isPersist (e : event) : bool :=
  match e with EvCreateEnvironment _ _ => true | _ => false end.

(** The calls that change something at the backend or in the
    registry. *)
Definition mutates (e : event) : bool :=
  isDelegate e || isApply e || isLink e || isPersist e.
End Kinds.
End EnvObs.

Module DeployObs.
Import AppDeploy.
Definition isRender (e : event) : bool :=
  match e with EvPackageApp _ _ _ => true | _ => false end.
Definition isNewRandom (e : event) : bool :=
  match e with EvNewRandom _ => true | _ => false end.
Definition isApply (e : event) : bool :=
  match e with EvDeployApp _ _ _ _ _ _ _ => true | _ => false end.
Definition isResolve (e : event) : bool :=
  match e with
  | EvNewWebAppDescriber _ _ _ => true
  | EvURI _ _ _ _ => true
  | _ => false
  end.
(** A [SelectOne] prompt with the given message. *)
Definition isSelect (message : string) (e : event) : bool :=
  match e with
  | EvSelectOne m _ _ _ => m =? message
  | _ => false
  end.
End DeployObs.

(* ================================================================== *)
(** ** The event correlator *)

Module Correlator.
Import EnvInit.

(** One progress row: the phase, its counter, its expected count and
    whether it is complete. *)
Record TabRow := mkTabRow {
  row_text : Text;
  row_count : Z;
  row_expected : Z;
  row_complete : bool
}.

(** Modelled from the spec: [termprogress.HumanizeResourceEvents] is
    declared outside the given sources.  The correlator maintains, per
    declared phase and in the declared order, a counter of the events
    matched by the phase's predicate; the counter is capped at the
    expected count and excess events are ignored; an event that matches
    no phase changes no counter; a phase is complete when its counter
    reaches its expected count. *)
Definition observe (matches : ResourceMatcher) (expected : Z)
           (counter : Z) (e : ResourceEvent) : Z :=
  if matches (ev_Resource e) && (counter <? expected)%Z
  then (counter + 1)%Z
  else counter.

Definition counter_from (matches : ResourceMatcher) (expected : Z)
           (start : Z) (events : list ResourceEvent) : Z :=
  fold_left (observe matches expected) events start.

Definition counter (matches : ResourceMatcher) (expected : Z)
           (events : list ResourceEvent) : Z :=
  counter_from matches expected 0%Z events.

Definition HumanizeResourceEvents
           (orderedTexts : list Text) (resourceEvents : list ResourceEvent)
           (matcher : list (Text * ResourceMatcher))
           (wantedCount : list (Text * Z)) : list TabRow :=
  flat_map
    (fun text =>
       match lookup matcher text, lookup wantedCount text with
       | Some matches, Some expected =>
           let n := counter matches expected resourceEvents in
           [mkTabRow text n expected (expected <=? n)%Z]
       | _, _ => []
       end)
    orderedTexts.

(** Modelled from the spec: the package variable [envProgressOrder] is
    declared outside the given sources; the phases are taken in the
    order network, gateway, public and private subnets, route tables,
    cluster, load balancer. *)
Definition envProgressOrder : list Text :=
  [ textVPC; textInternetGateway; textPublicSubnets; textPrivateSubnets;
    textRouteTables; textECSCluster; textALB ].

(** The counter of a phase of the environment bring-up. *)
Definition phaseCounter (text : Text) (events : list ResourceEvent) : Z :=
  match lookup matcher text, lookup resourceCounts text with
  | Some matches, Some expected => counter matches expected events
  | _, _ => 0%Z
  end.

Definition expectedCount (text : Text) : Z :=
  match lookup resourceCounts text with
  | Some expected => expected
  | None => 0%Z
  end.
End Correlator.

(* ================================================================== *)
(** ** Scenarios: collaborators with fixed answers *)

Module Scenario.
(** A collaborator without state that always gives the same answer. *)
Definition answers {R} (r : R) : unit -> R * unit := fun w => (r, w).

Definition globals : GlobalOpts := mkGlobalOpts "phonetool" "phonetool".

Definition phonetool (delegation : bool) : Project :=
  mkProject "phonetool" "1111" "phonetool.example.com" delegation.

Definition testEnv : Environment :=
  mkEnvironment "phonetool" "test" "us-west-2" "2222" false
                "arn:manager" "arn:execution".

Definition frontend : Application :=
  mkApplication "phonetool" "frontend" "Load Balanced Web App".

Definition throttled : error := errors_New "Rate exceeded".

(** [app init] *)
Definition initAppOpts : AppInit.initAppOpts :=
  AppInit.mkInitAppOpts globals "Load Balanced Web App" "frontend"
                        "frontend/Dockerfile" None "".

Definition initAppDeps (got : result Application) : AppInit.deps unit :=
  AppInit.mkDeps unit
    (fun _ _ => answers got)
    (fun _ => answers None)
    (fun _ => answers (Ok (phonetool false)))
    (fun _ _ => answers (Ok "/ws/ecs-project/frontend/manifest.yml"))
    (answers (Ok "/ws"))
    (fun _ _ => Ok "ecs-project/frontend/manifest.yml")
    (fun _ _ => answers None).

(** [env init] *)
Definition initEnvOpts : EnvInit.initEnvOpts :=
  EnvInit.mkInitEnvOpts globals "test" "default" false.

Definition vpcCreated : ResourceEvent :=
  mkResourceEvent (mkResource "VPC" "AWS::EC2::VPC") "CREATE_COMPLETE" "".

Definition initEnvDeps (project : result Project) (envCaller : Caller)
           (apply link persist : option error) : EnvInit.deps unit :=
  EnvInit.mkDeps unit
    (fun _ => answers project)
    (fun _ => answers persist)
    (fun _ => answers apply)
    (fun _ => answers ([[vpcCreated]; [vpcCreated; vpcCreated]],
                       mkCreateEnvironmentResponse (Some testEnv) None))
    (fun _ _ => answers None)
    (fun _ _ => answers link)
    (answers (Ok (mkCaller "1111" "arn:aws:iam::1111:root")))
    (answers (Ok envCaller)).

(** [app deploy] *)
Definition appDeployOpts (app env : string) : AppDeploy.appDeployOpts :=
  AppDeploy.mkAppDeployOpts globals app env "v1" None None None None.

Definition id1 : UUID :=
  exist _
    [ Byte.x12; Byte.x3e; Byte.x45; Byte.x67; Byte.xe8; Byte.x9b; Byte.x12;
      Byte.xd3; Byte.xa4; Byte.x56; Byte.x42; Byte.x66; Byte.x14; Byte.x17;
      Byte.x40; Byte.x00 ]%list eq_refl.

Definition id2 : UUID :=
  exist _
    [ Byte.x12; Byte.x3e; Byte.x45; Byte.x67; Byte.xe8; Byte.x9b; Byte.x12;
      Byte.xd3; Byte.xa4; Byte.x56; Byte.x42; Byte.x66; Byte.x14; Byte.x17;
      Byte.x40; Byte.x01 ]%list eq_refl.

Definition NameForApp (project env app : string) : string :=
  project ++ "-" ++ env ++ "-" ++ app.

Definition appDeployDeps (names : list string) (envs : list Environment)
           (push : option error) (rendered : string * option error)
           (id : UUID) : AppDeploy.deps unit :=
  AppDeploy.mkDeps unit
    (answers (Ok names))
    (fun _ => answers (Ok "image: frontend/Dockerfile"))
    (fun _ => answers (Ok envs))
    (fun _ _ => answers (Ok testEnv))
    (fun _ _ _ => answers (Ok "picked"))
    (fun _ _ => answers (Ok "typed"))
    (answers (Ok "v1"))
    (fun _ => answers (Ok (AppDeploy.session "tools-us-west-2")))
    (fun _ _ => answers (Ok (AppDeploy.session "env-manager")))
    (answers (Ok (AppDeploy.session "tools")))
    (fun _ _ => answers (Ok "1111.dkr.ecr/phonetool/frontend"))
    (fun _ => answers (Ok (mkAuth "AWS" "secret")))
    (fun _ _ _ => answers None)
    (fun _ _ _ => answers tt)
    (fun _ _ => answers push)
    (fun _ _ => answers rendered)
    (answers (Ok id))
    (fun _ _ _ _ _ _ => answers None)
    (fun _ _ => answers (Ok tt))
    (fun _ _ _ => answers (Ok "http://frontend.example.com"))
    (fun _ => Ok "frontend/Dockerfile")
    NameForApp.
End Scenario.

(* ================================================================== *)
(** ** [app deploy]: validation and the command body *)

Module AppDeployCmd.
Import AppDeploy.

Section Methods.
Context {W : Type} (d : deps W).
(** The package variable [errNoProjectInWorkspace] and
    [color.HighlightUserInput] are declared outside the given sources. *)
Variable errNoProjectInWorkspace : error.
Variable HighlightUserInput : string -> string.

Local Abbreviation M := (M event appDeployOpts W).

(** [for _, name := range names { if o.AppName == name { return nil } }]:
    whether the loop returns. *)
Fixpoint found (appName : string) (names : list string) : bool :=
  match names with
  | [] => false
  | name :: names' => if appName =? name then true else found appName names'
  end.

Definition validateAppName : M (option error) :=
  o <- this ;;
  r <- invoke (workspaceService_AppNames d) EvAppNames ;;
  match r with
  | Fail err =>
      ret (Some (fmt_Errorf_w "list applications in the workspace: " err))
  | Ok names =>
      if found (AppName o) names then ret None
      else
        ret (Some (errors_New
               ("application " ++ HighlightUserInput (AppName o) ++
                " not found in the workspace")))
  end.

Definition validateEnvName : M (option error) :=
  r <- targetEnv d ;;
  match r with
  | Fail err => ret (Some err)
  | Ok _ => ret None
  end.

(** Validate returns an error if the user inputs are invalid. *)
Definition Validate : M (option error) :=
  o <- this ;;
  if ProjectName (globalOpts o) =? "" then ret (Some errNoProjectInWorkspace)
  else
    err <- (if negb (AppName o =? "") then validateAppName else ret None) ;;
    match err with
    | Some err => ret (Some err)
    | None =>
        err <- (if negb (EnvName o =? "") then validateEnvName
                else ret None) ;;
        match err with
        | Some err => ret (Some err)
        | None => ret None
        end
    end.

(** The body of the command's [RunE], from the options built by
    [newAppDeployOpts] on: validate, ask, execute. *)
Definition RunE : M (option error) :=
  err <- Validate ;;
  match err with
  | Some err => ret (Some err)
  | None =>
      err <- Ask d ;;
      match err with
      | Some err => ret (Some err)
      | None =>
          err <- Execute d ;;
          match err with
          | Some err => ret (Some err)
          | None => ret None
          end
      end
  end.
End Methods.

(** The calls that make or change something outside the process: the
    image build, the registry login and push, the stack apply. *)
Definition acts (e : event) : bool :=
  match e with
  | EvBuild _ _ _ _ => true
  | EvLogin _ _ _ => true
  | EvPush _ _ _ => true
  | EvDeployApp _ _ _ _ _ _ _ => true
  | _ => false
  end.

(** The prompts. *)
Definition prompts (e : event) : bool :=
  match e with
  | EvSelectOne _ _ _ _ => true
  | EvPromptGet _ _ _ => true
  | _ => false
  end.

(** The calls whose error [Execute] checks, when they answer an error. *)
Definition failed (e : event) : bool :=
  match e with
  | EvGetEnvironment _ _ (Fail _) => true
  | EvDefaultWithRegion _ (Fail _) => true
  | EvFromRole _ _ (Fail _) => true
  | EvDefault (Fail _) => true
  | EvGetRepository _ _ (Fail _) => true
  | EvReadAppManifest _ (Fail _) => true
  | EvBuild _ _ _ (Some _) => true
  | EvGetECRAuth _ (Fail _) => true
  | EvPush _ _ (Some _) => true
  | EvNewRandom (Fail _) => true
  | EvDeployApp _ _ _ _ _ _ (Some _) => true
  | EvNewWebAppDescriber _ _ (Fail _) => true
  | EvURI _ _ _ (Fail _) => true
  | _ => false
  end.

Definition isSpinnerStop (e : event) : bool :=
  match e with EvSpinnerStop => true | _ => false end.
End AppDeployCmd.

(** What follows the first call of a kind in a log. *)
Fixpoint after_first {A} (P : A -> bool) (l : list A) : list A :=
  match l with
  | [] => []
  | e :: l' => if P e then l' else after_first P l'
  end.

(* ================================================================== *)
(** ** [app init]: validation and prompts *)

Definition newline : string := String (ascii_of_nat 10) EmptyString.
Definition dquote : string := String (ascii_of_nat 34) EmptyString.

Module AppInitCmd.
Import AppInit.

Definition set_AppType (v : string) (o : initAppOpts) : initAppOpts :=
  mkInitAppOpts (globalOpts o) v (AppName o) (DockerfilePath o) (proj o)
                (manifestPath o).
Definition set_AppName (v : string) (o : initAppOpts) : initAppOpts :=
  mkInitAppOpts (globalOpts o) (AppType o) v (DockerfilePath o) (proj o)
                (manifestPath o).
Definition set_DockerfilePath (v : string) (o : initAppOpts) : initAppOpts :=
  mkInitAppOpts (globalOpts o) (AppType o) (AppName o) v (proj o)
                (manifestPath o).

(** The calls [Validate] and [Ask] make.  Of [fs.Stat]'s answer only
    the error is read. *)
Inductive event : Type :=
| EvStat (name : string) (r : option error)
| EvSelectOne (message help : string) (options : list string)
              (r : result string)
| EvGet (message help : string) (r : result string)
| EvListDockerfiles (dir : string) (r : result (list string)).

(** [prompt.Get] is handed the validator of the answer. *)
Record deps (W : Type) := mkDeps {
  fs_Stat : string -> W -> option error * W;
  prompt_SelectOne :
    string -> string -> list string -> W -> result string * W;
  prompt_Get :
    string -> string -> (string -> option error) -> W -> result string * W;
  listDockerfiles : string -> W -> result (list string) * W
}.
Arguments fs_Stat {W}.
Arguments prompt_SelectOne {W}.
Arguments prompt_Get {W}.
Arguments listDockerfiles {W}.

Definition appInitDockerfileHelpPrompt : string :=
  "Dockerfile to use for building your application's container image.".

Definition appInitAppTypeHelpPrompt : string :=
  "Your application's architecture. Most applications need additional AWS resources to run."
  ++ newline ++
  "To help setup the infrastructure resources, select what " ++ dquote ++
  "kind" ++ dquote ++ " or " ++ dquote ++ "type" ++ dquote ++
  " of application you want to build.".

Section Methods.
Context {W : Type} (d : deps W).
(** Declared outside the given sources: the package variable
    [errNoProjectInWorkspace], the validators of the flags, the list
    [manifest.AppTypes] and the functions of package [color]. *)
Variable errNoProjectInWorkspace : error.
Variables validateApplicationType validateApplicationName :
  string -> option error.
Variable AppTypes : list string.
Variables Emphasize HighlightUserInput : string -> string.

Local Abbreviation M := (M event initAppOpts W).

Definition appInitAppTypePrompt : string :=
  "Which type of " ++ Emphasize "infrastructure pattern" ++
  " best represents your application?".

(** [fmt.Sprintf(fmtAppInitAppNamePrompt, appType)] *)
Definition appInitAppNamePrompt (appType : string) : string :=
  "What do you want to " ++ Emphasize "name" ++ " this " ++ appType ++ "?".

(** [fmt.Sprintf(fmtAppInitAppNameHelpPrompt, project)] *)
Definition appInitAppNameHelpPrompt (project : string) : string :=
  "The name will uniquely identify this application within your " ++
  project ++ " project." ++ newline ++
  "Deployed resources (such as your service, logs) will contain this app's name and be tagged with it.".

(** [fmt.Sprintf(fmtAppInitDockerfilePrompt, app)] *)
Definition appInitDockerfilePrompt (app : string) : string :=
  "Which Dockerfile would you like to use for " ++ app ++ "?".

(** Validate returns an error if the flag values passed by the user are
    invalid. *)
Definition Validate : M (option error) :=
  o <- this ;;
  if ProjectName (globalOpts o) =? "" then ret (Some errNoProjectInWorkspace)
  else
    match (if negb (AppType o =? "")
           then validateApplicationType (AppType o) else None) with
    | Some err => ret (Some err)
    | None =>
    match (if negb (AppName o =? "")
           then validateApplicationName (AppName o) else None) with
    | Some err => ret (Some err)
    | None =>
        if negb (DockerfilePath o =? "") then
          err <- invoke (fs_Stat d (DockerfilePath o))
                        (EvStat (DockerfilePath o)) ;;
          match err with
          | Some err => ret (Some err)
          | None => ret None
          end
        else ret None
    end end.

Definition askAppType : M (option error) :=
  o <- this ;;
  if negb (AppType o =? "") then ret None
  else
    r <- invoke (prompt_SelectOne d appInitAppTypePrompt
                   appInitAppTypeHelpPrompt AppTypes)
                (EvSelectOne appInitAppTypePrompt appInitAppTypeHelpPrompt
                   AppTypes) ;;
    match r with
    | Fail err => ret (Some (fmt_Errorf_w "failed to get type selection: " err))
    | Ok t => assign (set_AppType t) ;; ret None
    end.

Definition askAppName : M (option error) :=
  o <- this ;;
  if negb (AppName o =? "") then ret None
  else
    let message := appInitAppNamePrompt (HighlightUserInput (AppType o)) in
    let help := appInitAppNameHelpPrompt (ProjectName (globalOpts o)) in
    r <- invoke (prompt_Get d message help validateApplicationName)
                (EvGet message help) ;;
    match r with
    | Fail err =>
        ret (Some (fmt_Errorf_w "failed to get application name: " err))
    | Ok name => assign (set_AppName name) ;; ret None
    end.

(** askDockerfile prompts for the Dockerfile by looking at
    sub-directories with a Dockerfile. *)
Definition askDockerfile : M (option error) :=
  o <- this ;;
  if negb (DockerfilePath o =? "") then ret None
  else
    r <- invoke (listDockerfiles d ".") (EvListDockerfiles ".") ;;
    match r with
    | Fail err => ret (Some err)
    | Ok dockerfiles =>
        let message :=
          appInitDockerfilePrompt (HighlightUserInput (AppName o)) in
        r <- invoke (prompt_SelectOne d message appInitDockerfileHelpPrompt
                       dockerfiles)
                    (EvSelectOne message appInitDockerfileHelpPrompt
                       dockerfiles) ;;
        match r with
        | Fail err =>
            ret (Some (fmt_Errorf_w "failed to select Dockerfile: " err))
        | Ok sel => assign (set_DockerfilePath sel) ;; ret None
        end
    end.

(** Ask prompts for fields that are required but not passed in. *)
Definition Ask : M (option error) :=
  err <- askAppType ;;
  match err with
  | Some err => ret (Some err)
  | None =>
      err <- askAppName ;;
      match err with
      | Some err => ret (Some err)
      | None =>
          err <- askDockerfile ;;
          match err with
          | Some err => ret (Some err)
          | None => ret None
          end
      end
  end.
End Methods.
End AppInitCmd.

(** The calls of [app init]'s [Execute] whose answer makes it fail: an
    application that exists, a store error other than "no such
    application", and any other error. *)
Module InitObs.
Import AppInit.
Definition failed (e : event) : bool :=
  match e with
  | EvGetApplication _ _ (Ok _) => true
  | EvGetApplication _ _ (Fail err) =>
      negb (chain_As err asErrNoSuchApplication)
  | EvGetProject _ (Fail _) => true
  | EvWriteAppManifest _ _ (Fail _) => true
  | EvGetwd (Fail _) => true
  | EvAddAppToProject _ _ (Some _) => true
  | EvCreateApplication _ (Some _) => true
  | _ => false
  end.

Definition isProgStop (e : event) : bool :=
  match e with EvProgStop => true | _ => false end.
End InitObs.

(* ================================================================== *)
(** ** [env init]: validation and prompts *)

Module EnvInitCmd.
Import EnvInit.

Definition set_EnvName (v : string) (o : initEnvOpts) : initEnvOpts :=
  mkInitEnvOpts (globalOpts o) v (EnvProfile o) (IsProduction o).
Definition set_EnvProfile (v : string) (o : initEnvOpts) : initEnvOpts :=
  mkInitEnvOpts (globalOpts o) (EnvName o) v (IsProduction o).

Inductive event : Type :=
| EvGet (message help : string) (r : result string)
| EvNames (r : list string)
| EvSelectOne (message help : string) (options : list string)
              (r : result string).

Record deps (W : Type) := mkDeps {
  prompt_Get :
    string -> string -> (string -> option error) -> W -> result string * W;
  prompt_SelectOne :
    string -> string -> list string -> W -> result string * W;
  profileConfig_Names : W -> list string * W
}.
Arguments prompt_Get {W}.
Arguments prompt_SelectOne {W}.
Arguments profileConfig_Names {W}.

Definition envInitNamePrompt : string := "What is your environment's name?".
Definition envInitNameHelpPrompt : string :=
  "A unique identifier for an environment (e.g. dev, test, prod).".
Definition envInitProfileHelpPrompt : string :=
  "The AWS CLI named profile with the permissions to create an environment.".

(** [fmt.Sprintf(fmtEnvInitProfilePrompt, env)] *)
Definition envInitProfilePrompt (env : string) : string :=
  "Which named profile should we use to create " ++ env ++ "?".

Section Methods.
Context {W : Type} (d : deps W).
(** [validateEnvironmentName] and the functions of package [color] are
    declared outside the given sources. *)
Variable validateEnvironmentName : string -> option error.
Variables HighlightUserInput HighlightCode : string -> string.

Local Abbreviation M := (M event initEnvOpts W).

Definition errNamedProfilesNotFound : error :=
  errors_New ("no named AWS profiles found, run " ++
              HighlightCode "aws configure" ++ " first please").

(** Validate returns an error if the values passed by the user are
    invalid. *)
Definition Validate : M (option error) :=
  o <- this ;;
  match (if negb (EnvName o =? "")
         then validateEnvironmentName (EnvName o) else None) with
  | Some err => ret (Some err)
  | None =>
      if ProjectName (globalOpts o) =? "" then
        ret (Some (errors_New
               ("no project found: run " ++ HighlightCode "project init" ++
                " or " ++ HighlightCode "cd" ++
                " into your workspace please")))
      else ret None
  end.

Definition askEnvName : M (option error) :=
  o <- this ;;
  if negb (EnvName o =? "") then ret None
  else
    r <- invoke (prompt_Get d envInitNamePrompt envInitNameHelpPrompt
                   validateEnvironmentName)
                (EvGet envInitNamePrompt envInitNameHelpPrompt) ;;
    match r with
    | Fail err =>
        ret (Some (fmt_Errorf_w "prompt to get environment name: " err))
    | Ok envName => assign (set_EnvName envName) ;; ret None
    end.

Definition askEnvProfile : M (option error) :=
  o <- this ;;
  if negb (EnvProfile o =? "") then ret None
  else
    names <- invoke (profileConfig_Names d) EvNames ;;
    if (List.length names =? 0)%nat then ret (Some errNamedProfilesNotFound)
    else
      let message := envInitProfilePrompt (HighlightUserInput (EnvName o)) in
      r <- invoke (prompt_SelectOne d message envInitProfileHelpPrompt names)
                  (EvSelectOne message envInitProfileHelpPrompt names) ;;
      match r with
      | Fail err =>
          ret (Some (fmt_Errorf_w "prompt to get the profile name: " err))
      | Ok profile => assign (set_EnvProfile profile) ;; ret None
      end.

(** Ask asks for fields that are required but not passed in. *)
Definition Ask : M (option error) :=
  err <- askEnvName ;;
  match err with
  | Some err => ret (Some err)
  | None => askEnvProfile
  end.
End Methods.
End EnvInitCmd.

(** The calls of [env init]'s [Execute] that answer an error, the
    "stack already exists" answer of the apply apart. *)
Module EnvFailures.
Import EnvInit.
Section Kinds.
Context {TabRow : Type}.

Definition failed (e : event TabRow) : bool :=
  match e with
  | EvGetProject _ (Fail _) => true
  | EvIdentityGet (Fail _) => true
  | EvEnvIdentityGet (Fail _) => true
  | EvDelegateDNSPermissions _ _ (Some _) => true
  | EvDeployEnvironment _ (Some err) =>
      negb (chain_As err asErrStackAlreadyExists)
  | EvStreamEnvironmentCreation _ (_, resp) =>
      match resp_Err resp with Some _ => true | None => false end
  | EvAddEnvToProject _ _ (Some _) => true
  | EvCreateEnvironment _ (Some _) => true
  | _ => false
  end.

Definition isProgStop (e : event TabRow) : bool :=
  match e with EvProgStop => true | _ => false end.

Definition isReport (e : event TabRow) : bool :=
  match e with EvProgEvents _ => true | _ => false end.
End Kinds.
End EnvFailures.

(* ================================================================== *)
(** ** Scenarios: one failing step *)

Module Failing.
Import Scenario.

(** The steps of [app deploy]. *)
Inductive Step : Type :=
| GetEnvironment | DefaultWithRegion | FromRole | Default | GetRepository
| ReadAppManifest | UnmarshalApp | Build | GetECRAuth | Push | PackageApp
| NewRandom | DeployApp | NewWebAppDescriber | URI | GetVersionTag
| PromptGet.

Definition Step_eqb (a b : Step) : bool :=
  match a, b with
  | GetEnvironment, GetEnvironment | DefaultWithRegion, DefaultWithRegion
  | FromRole, FromRole | Default, Default | GetRepository, GetRepository
  | ReadAppManifest, ReadAppManifest | UnmarshalApp, UnmarshalApp
  | Build, Build | GetECRAuth, GetECRAuth | Push, Push
  | PackageApp, PackageApp | NewRandom, NewRandom | DeployApp, DeployApp
  | NewWebAppDescriber, NewWebAppDescriber | URI, URI
  | GetVersionTag, GetVersionTag | PromptGet, PromptGet => true
  | _, _ => false
  end.

Definition hit {S} (eqb : S -> S -> bool) (failing : option S) (s : S)
  : bool :=
  match failing with
  | Some f => eqb f s
  | None => false
  end.

(** The answer of a step: the error when it is the failing one. *)
Definition res {S T} (eqb : S -> S -> bool) (failing : option S) (s : S)
           (t : T) : result T :=
  if hit eqb failing s then Fail throttled else Ok t.
Definition err {S} (eqb : S -> S -> bool) (failing : option S) (s : S)
  : option error :=
  if hit eqb failing s then Some throttled else None.

Definition appDeployDeps (failing : option Step) : AppDeploy.deps unit :=
  let ok {T} (s : Step) (t : T) := res Step_eqb failing s t in
  AppDeploy.mkDeps unit
    (answers (Ok ["frontend"; "backend"]))
    (fun _ => answers (ok ReadAppManifest "image: frontend/Dockerfile"))
    (fun _ => answers (Ok [testEnv]))
    (fun _ _ => answers (ok GetEnvironment testEnv))
    (fun _ _ _ => answers (Ok "picked"))
    (fun _ _ => answers (ok PromptGet "typed"))
    (answers (ok GetVersionTag "v1"))
    (fun _ => answers (ok DefaultWithRegion
                         (AppDeploy.session "tools-us-west-2")))
    (fun _ _ => answers (ok FromRole (AppDeploy.session "env-manager")))
    (answers (ok Default (AppDeploy.session "tools")))
    (fun _ _ => answers (ok GetRepository "1111.dkr.ecr/phonetool/frontend"))
    (fun _ => answers (ok GetECRAuth (mkAuth "AWS" "secret")))
    (fun _ _ _ => answers (err Step_eqb failing Build))
    (fun _ _ _ => answers tt)
    (fun _ _ => answers (err Step_eqb failing Push))
    (fun _ _ => answers (if hit Step_eqb failing PackageApp
                         then ("", Some throttled)
                         else ("Resources: {}", None)))
    (answers (ok NewRandom id1))
    (fun _ _ _ _ _ _ => answers (err Step_eqb failing DeployApp))
    (fun _ _ => answers (ok NewWebAppDescriber tt))
    (fun _ _ _ => answers (ok URI "http://frontend.example.com"))
    (fun _ => ok UnmarshalApp "frontend/Dockerfile")
    NameForApp.

Definition appDeployOpts (project app env tag : string)
  : AppDeploy.appDeployOpts :=
  AppDeploy.mkAppDeployOpts (mkGlobalOpts project project) app env tag
                            None None None None.

Definition errNoProjectInWorkspace : error :=
  errors_New "could not find a project attached to this workspace".

Definition highlight (s : string) : string := s.

(** The steps of [env init]; [StackExists] is the apply answering that
    the stack is there, [EmptyResponse] the stream answering neither an
    error nor an environment. *)
Inductive EnvStep : Type :=
| EnvGetProject | Identity | EnvIdentity | Delegate | Apply | StackExists
| Stream | EmptyResponse | Link | Persist.

Definition EnvStep_eqb (a b : EnvStep) : bool :=
  match a, b with
  | EnvGetProject, EnvGetProject | Identity, Identity
  | EnvIdentity, EnvIdentity | Delegate, Delegate | Apply, Apply
  | StackExists, StackExists | Stream, Stream
  | EmptyResponse, EmptyResponse | Link, Link | Persist, Persist => true
  | _, _ => false
  end.

Definition otherAccount : Caller := mkCaller "2222" "arn:aws:iam::2222:root".

Definition initEnvDeps (failing : option EnvStep) : EnvInit.deps unit :=
  let ok {T} (s : EnvStep) (t : T) := res EnvStep_eqb failing s t in
  EnvInit.mkDeps unit
    (fun _ => answers (ok EnvGetProject (phonetool true)))
    (fun _ => answers (err EnvStep_eqb failing Persist))
    (fun _ => answers
       (if hit EnvStep_eqb failing StackExists
        then Some (ErrStackAlreadyExists "phonetool-test" None)
        else err EnvStep_eqb failing Apply))
    (fun _ => answers
       ([[vpcCreated]; [vpcCreated; vpcCreated]],
        if hit EnvStep_eqb failing EmptyResponse
        then mkCreateEnvironmentResponse None None
        else if hit EnvStep_eqb failing Stream
        then mkCreateEnvironmentResponse None (Some throttled)
        else mkCreateEnvironmentResponse (Some testEnv) None))
    (fun _ _ => answers (err EnvStep_eqb failing Delegate))
    (fun _ _ => answers (err EnvStep_eqb failing Link))
    (answers (ok Identity (mkCaller "1111" "arn:aws:iam::1111:root")))
    (answers (ok EnvIdentity otherAccount)).

(** The input [env init] builds in these scenarios. *)
Definition input : CreateEnvironmentInput :=
  mkCreateEnvironmentInput "test" "phonetool" false true
    "arn:aws:iam::1111:root" "phonetool.example.com".

(** [env init]: prompts. *)
Definition envCmdDeps (profiles : list string) : EnvInitCmd.deps unit :=
  EnvInitCmd.mkDeps unit
    (fun _ _ _ => answers (Ok "test"))
    (fun _ _ _ => answers (Ok "default"))
    (answers profiles).

Definition initEnvOpts (project name profile : string)
  : EnvInit.initEnvOpts :=
  EnvInit.mkInitEnvOpts (mkGlobalOpts project project) name profile false.

Definition validateName (name : string) : option error :=
  if name =? "bad name" then Some (errors_New "invalid name") else None.

(** [app init]: flags and prompts. *)
Definition appCmdDeps (stat : option error) (listed : result (list string))
  : AppInitCmd.deps unit :=
  AppInitCmd.mkDeps unit
    (fun _ => answers stat)
    (fun _ _ options => answers (Ok (hd "none" options)))
    (fun _ _ _ => answers (Ok "frontend"))
    (fun _ => answers listed).

Definition initAppOpts (project type name dockerfile : string)
  : AppInit.initAppOpts :=
  AppInit.mkInitAppOpts (mkGlobalOpts project project) type name dockerfile
                        None "".

(** [app init]: [Execute] with a manifest path that cannot be made
    relative. *)
Definition initAppDepsNoRel : AppInit.deps unit :=
  AppInit.mkDeps unit
    (fun _ _ => answers (Fail (ErrNoSuchApplication "phonetool" "frontend")))
    (fun _ => answers None)
    (fun _ => answers (Ok (phonetool false)))
    (fun _ _ => answers (Ok "ecs-project/frontend/manifest.yml"))
    (answers (Ok "/ws"))
    (fun _ _ => Fail (errors_New "Rel: can't make path relative"))
    (fun _ _ => answers None).
End Failing.

(* ================================================================== *)
(** ** Proof tools *)

Ltac unfold_wf :=
  unfold answer_of, trace_of, self_of, bind, ret, this, assign, invoke, emit,
         deref, panic, index in *.

(** Split on the answer of the next collaborator call or test. *)
Ltac case_step H :=
  match type of H with
  | context [match ?x with _ => _ end] =>
      lazymatch x with
      | context [match _ with _ => _ end] => fail
      | _ => destruct x eqn:?
      end
  end.

Ltac inv H :=
  first [ discriminate H
        | injection H; clear H; intros; subst
        | progress subst
        | clear H ].

(** Use what is known about the calls in a log and their answers. *)
Ltac log_facts :=
  repeat match goal with
    | H : False |- _ => destruct H
    | H : @eq AppInit.event _ _ |- _ => inv H
    | H : @eq (EnvInit.event _) _ _ |- _ => inv H
    | H : @eq AppDeploy.event _ _ |- _ => inv H
    | H : Ok _ = Ok _ |- _ => inv H
    | H : Fail _ = Fail _ |- _ => inv H
    | H : Ok _ = Fail _ |- _ => discriminate H
    | H : Fail _ = Ok _ |- _ => discriminate H
    | H : Some _ = Some _ |- _ => inv H
    | H : Some _ = None |- _ => discriminate H
    | H : None = Some _ |- _ => discriminate H
    | H : (_, _) = (_, _) |- _ => inv H
    | H : In _ [] |- _ => destruct H
    | H : In _ (_ :: _) |- _ => destruct H as [H|H]
    | H : In _ (_ ++ _) |- _ => apply in_app_or in H; destruct H as [H|H]
    | H : In _ (map _ _) |- _ =>
        apply in_map_iff in H; destruct H as [? [H ?]]
    | H : _ \/ _ |- _ => destruct H as [H|H]
    end.

(** Point at a call in a log. *)
Ltac log_find := simpl; solve [repeat (first [left; reflexivity | right])].

Ltac string_tests :=
  repeat match goal with
    | H : (_ =? _)%string = true |- _ => apply String.eqb_eq in H
    | H : (_ =? _)%string = false |- _ => apply String.eqb_neq in H
    | H : negb _ = true |- _ => apply negb_true_iff in H
    | H : negb _ = false |- _ => apply negb_false_iff in H
    end.

(** [errors.As] looks at the error itself, then at what it unwraps to. *)
Lemma chain_As_Unwrap (e : error) (t : errTarget) :
  chain_As e t =
  is_a t e || match Unwrap e with
              | Some e' => chain_As e' t
              | None => false
              end.
Proof. destruct e, t; reflexivity. Qed.

(** A loop that only reports to the spinner: one call per element. *)
Lemma range_emit {event O W A} (f : A -> event) (xs : list A) (s : st O W) :
  range xs (fun x s' => (Some tt, s', [f x])) s = (Some tt, s, map f xs).
Proof.
  induction xs as [|x xs IH]; simpl.
  - reflexivity.
  - unfold bind. rewrite IH. reflexivity.
Qed.

Lemma existsb_map_false {A B} (P : B -> bool) (f : A -> B) (xs : list A) :
  (forall x, P (f x) = false) -> existsb P (map f xs) = false.
Proof.
  intros H. induction xs as [|x xs IH]; simpl.
  - reflexivity.
  - rewrite H, IH. reflexivity.
Qed.

Lemma filter_map_false {A B} (P : B -> bool) (f : A -> B) (xs : list A) :
  (forall x, P (f x) = false) -> filter P (map f xs) = [].
Proof.
  intros H. induction xs as [|x xs IH]; simpl.
  - reflexivity.
  - rewrite H, IH. reflexivity.
Qed.

(** Evaluate an observation on a log that holds a loop's reports. *)
Ltac log_calc :=
  unfold count;
  repeat (simpl;
          rewrite ?existsb_app, ?filter_app, ?length_app;
          rewrite ?existsb_map_false by (intros; reflexivity);
          rewrite ?filter_map_false by (intros; reflexivity));
  simpl.

(** Run a workflow symbolically along every path: [H] says what the
    run gives, and ends up as the answer, final state and log of one
    path. *)
Ltac run_wf H :=
  unfold bind, ret, this, assign, invoke, emit, deref, panic, index in H;
  simpl in H;
  repeat (rewrite ?range_emit in H; case_step H; simpl in H);
  injection H as ? ? ?; subst;
  unfold answer_of, trace_of, self_of; simpl.

(* ================================================================== *)
(** ** [app init] *)

Section AppInitFacts.
Import AppInit.
Context {W : Type} (d : deps W).

(** C10. [Execute] fails, having written neither the manifest nor any
    registry record, when the store finds an application of that name in
    the project; an answer of the store in which [errors.As] finds
    [ErrNoSuchApplication] passes the check ([ensureNoExistingApp]
    answers nil) and [Execute] goes on to fetch the project; any other
    error of the store is wrapped and returned. *)
Theorem initApp_Execute_ensures_no_existing_app
        (o : initAppOpts) (w : W) :
  let project := ProjectName (globalOpts o) in
  let name := AppName o in
  let run := Execute d (St o w) in
  let got := fst (appStore_GetApplication d project name w) in
  (forall app, got = Ok app ->
     answer_of run =
       Some (Some (errors_New ("application " ++ name ++
                               " already exists under project " ++ project)))
     /\ trace_of run = [EvGetApplication project name (Ok app)]
     /\ existsb writes (trace_of run) = false)
  /\ (forall err, got = Fail err ->
        errors_As (Some err) asErrNoSuchApplication = true ->
        answer_of (ensureNoExistingApp d project name (St o w)) = Some None
        /\ exists r rest,
             trace_of run = EvGetApplication project name (Fail err)
                            :: EvGetProject project r :: rest)
  /\ (forall err, got = Fail err ->
        errors_As (Some err) asErrNoSuchApplication = false ->
        answer_of run =
          Some (Some (fmt_Errorf_w
                  ("couldn't check if application " ++ name ++
                   " exists in project " ++ project ++ ": ") err))
        /\ trace_of run = [EvGetApplication project name (Fail err)]
        /\ existsb writes (trace_of run) = false).
Proof.
  intros project name run got. subst project name run got.
  destruct (Execute d (St o w)) as [[ans fin] tr] eqn:Hrun.
  destruct (ensureNoExistingApp d _ _ _) as [[ans' fin'] tr'] eqn:Hsub.
  unfold Execute in Hrun.
  unfold ensureNoExistingApp, createManifest, createAppInProject in *.
  run_wf Hsub; run_wf Hrun.
  all: repeat split; intros; simpl in *; log_facts;
    try congruence; eauto.
Qed.
End AppInitFacts.

Lemma initApp_Execute_ensures_no_existing_app_witness :
  (answer_of (AppInit.Execute (Scenario.initAppDeps (Ok Scenario.frontend))
                (St Scenario.initAppOpts tt)) =
     Some (Some (errors_New
       "application frontend already exists under project phonetool")))
  /\ (exists r rest,
        trace_of (AppInit.Execute
                    (Scenario.initAppDeps
                       (Fail (ErrNoSuchApplication "phonetool" "frontend")))
                    (St Scenario.initAppOpts tt)) =
          AppInit.EvGetApplication "phonetool" "frontend"
            (Fail (ErrNoSuchApplication "phonetool" "frontend"))
          :: AppInit.EvGetProject "phonetool" r :: rest)
  /\ (answer_of (AppInit.Execute
                   (Scenario.initAppDeps (Fail Scenario.throttled))
                   (St Scenario.initAppOpts tt)) =
        Some (Some (fmt_Errorf_w
          "couldn't check if application frontend exists in project phonetool: "
          Scenario.throttled))).
Proof.
  split; [| split].
  - apply (proj1 (initApp_Execute_ensures_no_existing_app
                    (Scenario.initAppDeps (Ok Scenario.frontend))
                    Scenario.initAppOpts tt) Scenario.frontend).
    reflexivity.
  - apply (proj1 (proj2 (initApp_Execute_ensures_no_existing_app
                    (Scenario.initAppDeps
                       (Fail (ErrNoSuchApplication "phonetool" "frontend")))
                    Scenario.initAppOpts tt))
             (ErrNoSuchApplication "phonetool" "frontend")).
    + reflexivity.
    + reflexivity.
  - apply (proj2 (proj2 (initApp_Execute_ensures_no_existing_app
                    (Scenario.initAppDeps (Fail Scenario.throttled))
                    Scenario.initAppOpts tt))
             Scenario.throttled).
    + reflexivity.
    + reflexivity.
Defined.

(* ================================================================== *)
(** ** [env init] *)

Section EnvInitFacts.
Import EnvInit EnvObs.
Context {W TabRow : Type} (d : deps W).
Variable Humanize :
  list Text -> list ResourceEvent -> list (Text * ResourceMatcher) ->
  list (Text * Z) -> list TabRow.
Variable order : list Text.

Local Abbreviation Execute := (EnvInit.Execute d Humanize order).

Ltac run_env :=
  let Hrun := fresh "Hrun" in
  match goal with
  | |- context [EnvInit.Execute ?d ?h ?ord ?s] =>
      destruct (EnvInit.Execute d h ord s) as [[?ans ?fin] ?tr] eqn:Hrun
  end;
  unfold EnvInit.Execute, delegateDNSFromProject in Hrun;
  run_wf Hrun.

(** C7. When fetching the parent project fails, [Execute] returns that
    error and has made no other call: no DNS delegation, no change
    applied, nothing written to the registry. *)
Theorem initEnv_Execute_project_absent
        (o : initEnvOpts) (w : W) (name : string) (err : error) :
  let run := Execute (St o w) in
  In (EvGetProject name (Fail err)) (trace_of run) ->
  answer_of run = Some (Some err)
  /\ trace_of run = [EvGetProject name (Fail err)]
  /\ existsb mutates (trace_of run) = false.
Proof.
  intros run. subst run.
  run_env.
  all: intros; log_facts; auto.
Qed.

(** C1. When applying the change answers an error in which [errors.As]
    finds [ErrStackAlreadyExists], [Execute] returns nil and neither
    streams events, nor links the environment to the project, nor
    stores the environment; any other error of the apply is returned as
    it is. *)
Theorem initEnv_Execute_stack_already_exists
        (o : initEnvOpts) (w : W)
        (input : CreateEnvironmentInput) (err : error) :
  let run := Execute (St o w) in
  In (EvDeployEnvironment input (Some err)) (trace_of run) ->
  (errors_As (Some err) asErrStackAlreadyExists = true ->
     answer_of run = Some None
     /\ existsb isStream (trace_of run) = false
     /\ existsb isLink (trace_of run) = false
     /\ existsb isPersist (trace_of run) = false)
  /\ (errors_As (Some err) asErrStackAlreadyExists = false ->
        answer_of run = Some (Some err)).
Proof.
  intros run. subst run. run_env.
  all: intros; log_facts; simpl; split; intros; try congruence; auto.
Qed.

(** C6. When linking the environment to the project fails, [Execute]
    returns the wrapped error and the environment is not stored; when
    storing the environment fails, [Execute] returns the wrapped error.
    Either call is made only after the change was applied without
    error. *)
Theorem initEnv_Execute_partial_failure (o : initEnvOpts) (w : W) :
  let run := Execute (St o w) in
  (forall p env err,
      In (EvAddEnvToProject p env (Some err)) (trace_of run) ->
      answer_of run =
        Some (Some (fmt_Errorf_w
                ("deploy env " ++ env_Name env ++ " to project " ++
                 proj_Name p ++ ": ") err))
      /\ existsb isPersist (trace_of run) = false
      /\ exists input, In (EvDeployEnvironment input None) (trace_of run))
  /\ (forall env err,
        In (EvCreateEnvironment env (Some err)) (trace_of run) ->
        answer_of run =
          Some (Some (fmt_Errorf_w "store environment: " err))
        /\ exists input, In (EvDeployEnvironment input None) (trace_of run)).
Proof.
  intros run. subst run. run_env.
  all: split; intros; log_facts; log_calc; repeat split; eexists; log_find.
Qed.

(** C5. DNS delegation is entered only when the project requires it.
    When the environment's account is the project's account,
    [delegateDNSFromProject] answers nil without calling
    [DelegateDNSPermissions]; when the accounts differ,
    [DelegateDNSPermissions] is called exactly once, for the project and
    the environment's account, and no [DeployEnvironment] call comes
    before it. *)
Theorem initEnv_Execute_dns_delegation (o : initEnvOpts) (w : W) :
  let run := Execute (St o w) in
  (existsb (fun e => isEnvIdentity e || isDelegate e) (trace_of run) = true ->
   exists name p,
     In (EvGetProject name (Ok p)) (trace_of run)
     /\ RequiresDNSDelegation p = true)
  /\ (forall p s caller,
        fst (envIdentity_Get d (world s)) = Ok caller ->
        Account caller = proj_AccountID p ->
        let sub := delegateDNSFromProject (TabRow := TabRow) d p s in
        answer_of sub = Some None
        /\ trace_of sub = [EvEnvIdentityGet (Ok caller)])
  /\ (forall name p caller,
        In (EvGetProject name (Ok p)) (trace_of run) ->
        In (EvEnvIdentityGet (Ok caller)) (trace_of run) ->
        Account caller = proj_AccountID p ->
        count isDelegate (trace_of run) = 0)
  /\ (forall name p caller,
        In (EvGetProject name (Ok p)) (trace_of run) ->
        In (EvEnvIdentityGet (Ok caller)) (trace_of run) ->
        Account caller <> proj_AccountID p ->
        (exists r,
            In (EvDelegateDNSPermissions p (Account caller) r)
               (trace_of run))
        /\ count isDelegate (trace_of run) = 1
        /\ precedes isDelegate isApply (trace_of run) = true).
Proof.
  intros run. subst run. split; [| split; [| split]].
  - run_env.
    all: log_calc; intros; try discriminate.
    all: do 2 eexists; split; [left; reflexivity | assumption].
  - intros p s caller Hget Hsame sub. subst sub.
    unfold delegateDNSFromProject. unfold_wf.
    destruct (envIdentity_Get d (world s)) as [r w1]. simpl in *. subst r.
    rewrite Hsame, String.eqb_refl. auto.
  - run_env.
    all: intros; log_facts; string_tests; log_calc; congruence.
  - run_env.
    all: intros; log_facts; string_tests; log_calc; try congruence.
    all: repeat split; eexists; log_find.
Qed.
End EnvInitFacts.

(** The [env init] scenarios run with the correlator's rows. *)
Local Abbreviation envRun d :=
  (EnvInit.Execute d Correlator.HumanizeResourceEvents
                   Correlator.envProgressOrder (St Scenario.initEnvOpts tt)).

Lemma initEnv_Execute_project_absent_witness :
  let d := Scenario.initEnvDeps (Fail (errors_New "project not found"))
             (mkCaller "2222" "arn:aws:iam::2222:root") None None None in
  answer_of (envRun d) = Some (Some (errors_New "project not found"))
  /\ trace_of (envRun d) =
       [EnvInit.EvGetProject "phonetool"
          (Fail (errors_New "project not found"))]
  /\ existsb EnvObs.mutates (trace_of (envRun d)) = false.
Proof.
  intros d.
  apply (initEnv_Execute_project_absent d Correlator.HumanizeResourceEvents
           Correlator.envProgressOrder Scenario.initEnvOpts tt "phonetool"
           (errors_New "project not found")).
  simpl. left. reflexivity.
Defined.

Lemma initEnv_Execute_stack_already_exists_witness :
  let caller := mkCaller "2222" "arn:aws:iam::2222:root" in
  let exists_ := fmt_Errorf_w "create stack: "
                   (ErrStackAlreadyExists "phonetool-test" None) in
  let d1 := Scenario.initEnvDeps (Ok (Scenario.phonetool false)) caller
              (Some exists_) None None in
  let d2 := Scenario.initEnvDeps (Ok (Scenario.phonetool false)) caller
              (Some Scenario.throttled) None None in
  (answer_of (envRun d1) = Some None
   /\ existsb EnvObs.isStream (trace_of (envRun d1)) = false
   /\ existsb EnvObs.isLink (trace_of (envRun d1)) = false
   /\ existsb EnvObs.isPersist (trace_of (envRun d1)) = false)
  /\ answer_of (envRun d2) = Some (Some Scenario.throttled).
Proof.
  intros caller exists_ d1 d2.
  pose (input := mkCreateEnvironmentInput "test" "phonetool" false true
                   "arn:aws:iam::1111:root" "phonetool.example.com").
  split.
  - apply (proj1 (initEnv_Execute_stack_already_exists d1
                    Correlator.HumanizeResourceEvents
                    Correlator.envProgressOrder Scenario.initEnvOpts tt
                    input exists_ ltac:(vm_compute; tauto))).
    reflexivity.
  - apply (proj2 (initEnv_Execute_stack_already_exists d2
                    Correlator.HumanizeResourceEvents
                    Correlator.envProgressOrder Scenario.initEnvOpts tt
                    input Scenario.throttled ltac:(vm_compute; tauto))).
    reflexivity.
Defined.

Lemma initEnv_Execute_partial_failure_witness :
  let caller := mkCaller "2222" "arn:aws:iam::2222:root" in
  let d1 := Scenario.initEnvDeps (Ok (Scenario.phonetool false)) caller
              None (Some Scenario.throttled) None in
  let d2 := Scenario.initEnvDeps (Ok (Scenario.phonetool false)) caller
              None None (Some Scenario.throttled) in
  (answer_of (envRun d1) =
     Some (Some (fmt_Errorf_w "deploy env test to project phonetool: "
                              Scenario.throttled))
   /\ existsb EnvObs.isPersist (trace_of (envRun d1)) = false)
  /\ answer_of (envRun d2) =
       Some (Some (fmt_Errorf_w "store environment: " Scenario.throttled)).
Proof.
  intros caller d1 d2. split.
  - destruct (proj1 (initEnv_Execute_partial_failure d1
                       Correlator.HumanizeResourceEvents
                       Correlator.envProgressOrder Scenario.initEnvOpts tt)
                (Scenario.phonetool false) Scenario.testEnv
                Scenario.throttled ltac:(vm_compute; tauto))
      as [Hans [Hpersist _]].
    split; [exact Hans | exact Hpersist].
  - destruct (proj2 (initEnv_Execute_partial_failure d2
                       Correlator.HumanizeResourceEvents
                       Correlator.envProgressOrder Scenario.initEnvOpts tt)
                Scenario.testEnv Scenario.throttled
                ltac:(vm_compute; tauto))
      as [Hans _].
    exact Hans.
Defined.

Lemma initEnv_Execute_dns_delegation_witness :
  let same := mkCaller "1111" "arn:aws:iam::1111:root" in
  let other := mkCaller "2222" "arn:aws:iam::2222:root" in
  let d1 := Scenario.initEnvDeps (Ok (Scenario.phonetool true)) same
              None None None in
  let d2 := Scenario.initEnvDeps (Ok (Scenario.phonetool true)) other
              None None None in
  (exists name p,
      In (EnvInit.EvGetProject name (Ok p)) (trace_of (envRun d2))
      /\ RequiresDNSDelegation p = true)
  /\ answer_of (EnvInit.delegateDNSFromProject
                  (TabRow := Correlator.TabRow) d1 (Scenario.phonetool true)
                  (St Scenario.initEnvOpts tt)) = Some None
  /\ count EnvObs.isDelegate (trace_of (envRun d1)) = 0
  /\ count EnvObs.isDelegate (trace_of (envRun d2)) = 1
  /\ precedes EnvObs.isDelegate EnvObs.isApply (trace_of (envRun d2)) = true.
Proof.
  intros same other d1 d2.
  pose proof (initEnv_Execute_dns_delegation d1
                Correlator.HumanizeResourceEvents Correlator.envProgressOrder
                Scenario.initEnvOpts tt) as [_ [Hsame [Hzero _]]].
  pose proof (initEnv_Execute_dns_delegation d2
                Correlator.HumanizeResourceEvents Correlator.envProgressOrder
                Scenario.initEnvOpts tt) as [Honly [_ [_ Hdiff]]].
  split; [| split; [| split]].
  - apply Honly. reflexivity.
  - apply (Hsame (Scenario.phonetool true) (St Scenario.initEnvOpts tt) same).
    + reflexivity.
    + reflexivity.
  - apply (Hzero "phonetool" (Scenario.phonetool true) same).
    + vm_compute; tauto.
    + vm_compute; tauto.
    + reflexivity.
  - apply (Hdiff "phonetool" (Scenario.phonetool true) other).
    + vm_compute; tauto.
    + vm_compute; tauto.
    + discriminate.
Defined.

(* ================================================================== *)
(** ** The event correlator's counters *)

Section CorrelatorFacts.
Import EnvInit Correlator.
Local Open Scope Z_scope.

Variables (matches : ResourceMatcher) (expected : Z).

Lemma observe_bounds (c : Z) (e : ResourceEvent) :
  c <= expected -> c <= observe matches expected c e <= expected.
Proof.
  intros Hc. unfold observe.
  destruct (matches (ev_Resource e)); simpl; [| lia].
  destruct (Z.ltb_spec c expected); lia.
Qed.

Lemma counter_from_bounds (events : list ResourceEvent) :
  forall start,
    start <= expected ->
    start <= counter_from matches expected start events <= expected.
Proof.
  unfold counter_from.
  induction events as [|e events IH]; intros start Hstart; simpl.
  - lia.
  - pose proof (observe_bounds start e Hstart) as Hobs.
    specialize (IH (observe matches expected start e) (proj2 Hobs)).
    lia.
Qed.

Lemma counter_from_full (events : list ResourceEvent) :
  counter_from matches expected expected events = expected.
Proof.
  pose proof (counter_from_bounds events expected (Z.le_refl _)). lia.
Qed.

Lemma counter_app (events more : list ResourceEvent) :
  counter matches expected (events ++ more) =
  counter_from matches expected (counter matches expected events) more.
Proof. unfold counter, counter_from. apply fold_left_app. Qed.
End CorrelatorFacts.

Section PhaseFacts.
Import EnvInit Correlator.
Local Open Scope Z_scope.

Lemma declared (text : Text) :
  exists matches,
    lookup matcher text = Some matches
    /\ lookup resourceCounts text = Some (expectedCount text)
    /\ 0 <= expectedCount text.
Proof.
  destruct text; eexists; (split; [reflexivity |]);
    (split; [reflexivity | vm_compute; discriminate]).
Qed.

(** C8. For every phase of the environment bring-up and every sequence
    of events, the phase's counter stays between 0 and the expected
    count (1, 2, 2, 2, 4, 1, 4); once it has reached the expected count
    further events leave it there; and every row handed to the spinner
    carries that counter. *)
Theorem correlator_counter_capped
        (text : Text) (events : list ResourceEvent) :
  0 <= phaseCounter text events <= expectedCount text
  /\ (forall more,
        phaseCounter text events = expectedCount text ->
        phaseCounter text (events ++ more) = expectedCount text)
  /\ (forall order row,
        In row (humanizeEnvironmentEvents HumanizeResourceEvents order
                  events) ->
        row_text row = text ->
        row_count row = phaseCounter text events
        /\ row_expected row = expectedCount text
        /\ row_count row <= row_expected row)
  /\ expectedCount textVPC = 1
  /\ expectedCount textInternetGateway = 2
  /\ expectedCount textPublicSubnets = 2
  /\ expectedCount textPrivateSubnets = 2
  /\ expectedCount textRouteTables = 4
  /\ expectedCount textECSCluster = 1
  /\ expectedCount textALB = 4.
Proof.
  destruct (declared text) as [matches [Hm [Hn Hpos]]].
  assert (Hphase : forall evs,
             phaseCounter text evs =
             counter matches (expectedCount text) evs).
  { intros evs. unfold phaseCounter. rewrite Hm, Hn. reflexivity. }
  assert (Hbound : 0 <= phaseCounter text events <= expectedCount text).
  { rewrite Hphase. apply counter_from_bounds. exact Hpos. }
  split; [exact Hbound |].
  split; [| split; [| repeat split; reflexivity]].
  - intros more Hfull. rewrite !Hphase in *.
    rewrite counter_app, Hfull. apply counter_from_full.
  - intros order row Hin Htext.
    unfold humanizeEnvironmentEvents, HumanizeResourceEvents in Hin.
    apply in_flat_map in Hin. destruct Hin as [text' [_ Hrow]].
    destruct (declared text') as [matches' [Hm' [Hn' _]]].
    rewrite Hm', Hn' in Hrow. simpl in Hrow.
    destruct Hrow as [Hrow | []]. subst row. simpl in *. subst text'.
    rewrite Hphase. rewrite Hm in Hm'. injection Hm' as <-.
    repeat split. rewrite <- Hphase. apply Hbound.
Qed.

Lemma correlator_counter_capped_witness :
  let vpc := Scenario.vpcCreated in
  phaseCounter textVPC ([vpc] ++ [vpc; vpc]) = 1
  /\ (let row := mkTabRow textVPC 1 1 true in
      row_count row = phaseCounter textVPC [vpc; vpc]
      /\ row_expected row = expectedCount textVPC
      /\ row_count row <= row_expected row).
Proof.
  intros vpc. split.
  - apply (proj1 (proj2 (correlator_counter_capped textVPC [vpc]))
             [vpc; vpc]).
    reflexivity.
  - apply (proj1 (proj2 (proj2 (correlator_counter_capped textVPC
                                  [vpc; vpc])))
             envProgressOrder (mkTabRow textVPC 1 1 true)).
    + vm_compute. left. reflexivity.
    + reflexivity.
Defined.
End PhaseFacts.

(* ================================================================== *)
(** ** Change-set names *)

Lemma unhex_hex (b : Byte.byte) :
  unhex (hexdigit (Byte.to_N b / 16)) (hexdigit (Byte.to_N b mod 16)) = Some b.
Proof. destruct b; reflexivity. Qed.

Lemma hex_byte_inj (a b : Byte.byte) :
  hexdigit (Byte.to_N a / 16) = hexdigit (Byte.to_N b / 16) ->
  hexdigit (Byte.to_N a mod 16) = hexdigit (Byte.to_N b mod 16) ->
  a = b.
Proof.
  intros Hhi Hlo. pose proof (unhex_hex a) as Ha.
  rewrite Hhi, Hlo, unhex_hex in Ha. congruence.
Qed.

Lemma hex_groups_inj (u v : list Byte.byte) :
  List.length u = 16 -> List.length v = 16 ->
  hex_Encode (slice u 0 4) ++ "-" ++ hex_Encode (slice u 4 6) ++ "-" ++
  hex_Encode (slice u 6 8) ++ "-" ++ hex_Encode (slice u 8 10) ++ "-" ++
  hex_Encode (slice u 10 16) =
  hex_Encode (slice v 0 4) ++ "-" ++ hex_Encode (slice v 4 6) ++ "-" ++
  hex_Encode (slice v 6 8) ++ "-" ++ hex_Encode (slice v 8 10) ++ "-" ++
  hex_Encode (slice v 10 16) ->
  u = v.
Proof.
  intros Hu Hv.
  do 17 (destruct u as [|? u]; try discriminate Hu).
  do 17 (destruct v as [|? v]; try discriminate Hv).
  clear Hu Hv. intros H.
  cbn [slice firstn skipn hex_Encode append Nat.sub] in H.
  injection H. intros.
  repeat f_equal; apply hex_byte_inj; assumption.
Qed.

Lemma uuid_String_inj (u v : UUID) : uuid_String u = uuid_String v -> u = v.
Proof.
  destruct u as [u Hu], v as [v Hv]. unfold uuid_String, uuid_bytes. simpl.
  intros H.
  assert (E : u = v).
  { apply hex_groups_inj; [apply Nat.eqb_eq, Hu | apply Nat.eqb_eq, Hv | exact H]. }
  subst v. f_equal. apply Eqdep_dec.UIP_dec, Bool.bool_dec.
Qed.

Lemma append_inv_head (s a b : string) : s ++ a = s ++ b -> a = b.
Proof.
  induction s as [|c s IH]; simpl; intros H.
  - exact H.
  - injection H as H. auto.
Qed.

Lemma changeSetName_inj (stackName : string) (u v : UUID) :
  AppDeploy.changeSetName stackName u = AppDeploy.changeSetName stackName v ->
  u = v.
Proof.
  unfold AppDeploy.changeSetName. intros H.
  apply append_inv_head in H. injection H as H.
  apply uuid_String_inj; assumption.
Qed.

(* ================================================================== *)
(** ** [app deploy] *)

Section AppDeployFacts.
Import AppDeploy DeployObs.
Context {W : Type} (d : deps W).

Ltac run_deploy :=
  let Hrun := fresh "Hrun" in
  match goal with
  | |- context [AppDeploy.Execute ?d ?s] =>
      destruct (AppDeploy.Execute d s) as [[?ans ?fin] ?tr] eqn:Hrun
  end;
  unfold AppDeploy.Execute, targetEnv, configureClients,
         getAppDockerfilePath, getAppDeployTemplate,
         applyAppDeployTemplate in Hrun;
  run_wf Hrun.

(** C4. When the image push fails, [Execute] returns that error and
    neither renders the template, nor generates a random identifier (so
    no change-set name), nor applies the stack. *)
Theorem appDeploy_Execute_push_fails
        (o : appDeployOpts) (w : W) (uri tag : string) (err : error) :
  let run := Execute d (St o w) in
  In (EvPush uri tag (Some err)) (trace_of run) ->
  answer_of run = Some (Some err)
  /\ existsb isRender (trace_of run) = false
  /\ existsb isNewRandom (trace_of run) = false
  /\ existsb isApply (trace_of run) = false.
Proof.
  intros run. subst run. run_deploy.
  all: intros; log_facts; auto.
Qed.

Ltac run_ask :=
  let Hrun := fresh "Hrun" in
  match goal with
  | |- context [AppDeploy.Ask ?d ?s] =>
      destruct (AppDeploy.Ask d s) as [[?ans ?fin] ?tr] eqn:Hrun
  end;
  unfold AppDeploy.Ask, askAppName, askEnvName, askImageTag in Hrun;
  run_wf Hrun.

(** C9. In [Ask], the workspace is asked for its applications only when
    [AppName] is unset, and the project for its environments only when
    [EnvName] is unset.  When exactly one application is listed it
    becomes [AppName] and no application prompt is shown; when exactly
    one environment is listed its name becomes [EnvName] and no
    environment prompt is shown; when no application or no environment
    is listed, [Ask] returns an error. *)
Theorem appDeploy_Ask_defaults (o : appDeployOpts) (w : W) :
  let run := Ask d (St o w) in
  (forall name,
      In (EvAppNames (Ok [name])) (trace_of run) ->
      AppName o = ""
      /\ AppName (self_of run) = name
      /\ existsb (isSelect "Select an application") (trace_of run) = false)
  /\ (forall project env,
        In (EvListEnvironments project (Ok [env])) (trace_of run) ->
        EnvName o = ""
        /\ EnvName (self_of run) = env_Name env
        /\ existsb (isSelect "Select an environment") (trace_of run)
           = false)
  /\ (In (EvAppNames (Ok [])) (trace_of run) ->
      AppName o = ""
      /\ answer_of run =
           Some (Some (errors_New "no applications found in the workspace")))
  /\ (forall project,
        In (EvListEnvironments project (Ok [])) (trace_of run) ->
        EnvName o = ""
        /\ answer_of run =
             Some (Some (errors_New
                    ("no environments found in project " ++
                     ProjectName (globalOpts o)))))
  /\ (AppName o = "" ->
      exists r, hd_error (trace_of run) = Some (EvAppNames r)).
Proof.
  intros run. subst run. run_ask.
  all: repeat split; intros; log_facts; string_tests; simpl in *;
    try discriminate; try congruence; eauto.
Qed.

(** The names [Execute] hands to [DeployApp]: the stack name derived
    from project, target environment and application, and that name
    followed by "-" and the random identifier. *)
Lemma appDeploy_Execute_names
      (o : appDeployOpts) (w : W) (id : UUID) (client : Session)
      (template stackName changeSet role : string)
      (tags : list (TagKey * string)) (r : option error) :
  let run := Execute d (St o w) in
  In (EvNewRandom (Ok id)) (trace_of run) ->
  In (EvDeployApp client template stackName changeSet role tags r)
     (trace_of run) ->
  changeSet = changeSetName stackName id
  /\ exists env,
       In (EvGetEnvironment (ProjectName (globalOpts o)) (EnvName o)
             (Ok env)) (trace_of run)
       /\ stackName = stack_NameForApp d (ProjectName (globalOpts o))
                        (env_Name env) (AppName o).
Proof.
  intros run. subst run. run_deploy.
  all: intros; log_facts.
  all: split; [reflexivity | eexists; split; [left; reflexivity |]];
    simpl in *; congruence.
Qed.

(** A failed rendering does not stop [Execute]: the random identifier
    is asked for all the same. *)
Lemma appDeploy_Execute_render_unchecked
      (o : appDeployOpts) (w : W) (vars : packageAppVars)
      (describer : option Session) (out : string) (err : error) :
  let run := Execute d (St o w) in
  In (EvPackageApp vars describer (out, Some err)) (trace_of run) ->
  existsb isNewRandom (trace_of run) = true.
Proof.
  intros run. subst run. run_deploy.
  all: intros; log_facts; reflexivity.
Qed.
End AppDeployFacts.

(** C3. Each change-set name handed to [DeployApp] is the derived stack
    name, "-" and the random identifier of that run; two runs that derive
    the same stack name and draw different identifiers hand over different
    change-set names. *)
Theorem appDeploy_changeSetName_distinct
        {W1 W2 : Type} (d1 : AppDeploy.deps W1) (d2 : AppDeploy.deps W2)
        (o1 o2 : AppDeploy.appDeployOpts) (w1 : W1) (w2 : W2)
        (id1 id2 : UUID) (stackName : string)
        (c1 c2 : AppDeploy.Session) (t1 t2 cs1 cs2 role1 role2 : string)
        (tags1 tags2 : list (AppDeploy.TagKey * string))
        (r1 r2 : option error) :
  let run1 := AppDeploy.Execute d1 (St o1 w1) in
  let run2 := AppDeploy.Execute d2 (St o2 w2) in
  In (AppDeploy.EvNewRandom (Ok id1)) (trace_of run1) ->
  In (AppDeploy.EvDeployApp c1 t1 stackName cs1 role1 tags1 r1)
     (trace_of run1) ->
  In (AppDeploy.EvNewRandom (Ok id2)) (trace_of run2) ->
  In (AppDeploy.EvDeployApp c2 t2 stackName cs2 role2 tags2 r2)
     (trace_of run2) ->
  cs1 = stackName ++ "-" ++ uuid_String id1
  /\ cs2 = stackName ++ "-" ++ uuid_String id2
  /\ (id1 <> id2 -> cs1 <> cs2).
Proof.
  intros run1 run2 Hid1 Hcs1 Hid2 Hcs2.
  destruct (appDeploy_Execute_names d1 o1 w1 _ _ _ _ _ _ _ _ Hid1 Hcs1)
    as [E1 _].
  destruct (appDeploy_Execute_names d2 o2 w2 _ _ _ _ _ _ _ _ Hid2 Hcs2)
    as [E2 _].
  repeat split; try assumption.
  intros Hneq Heq. apply Hneq. subst cs1 cs2.
  apply (changeSetName_inj stackName); assumption.
Qed.

Local Abbreviation deployRun d app env :=
  (AppDeploy.Execute d (St (Scenario.appDeployOpts app env) tt)).
Local Abbreviation askRun d app env :=
  (AppDeploy.Ask d (St (Scenario.appDeployOpts app env) tt)).

Lemma appDeploy_Execute_push_fails_witness :
  let d := Scenario.appDeployDeps ["frontend"] [Scenario.testEnv]
             (Some Scenario.throttled) ("Resources: {}", None) Scenario.id1 in
  answer_of (deployRun d "frontend" "test") = Some (Some Scenario.throttled)
  /\ existsb DeployObs.isRender (trace_of (deployRun d "frontend" "test"))
     = false
  /\ existsb DeployObs.isNewRandom (trace_of (deployRun d "frontend" "test"))
     = false
  /\ existsb DeployObs.isApply (trace_of (deployRun d "frontend" "test"))
     = false.
Proof.
  intros d.
  apply (appDeploy_Execute_push_fails d (Scenario.appDeployOpts "frontend"
           "test") tt "1111.dkr.ecr/phonetool/frontend" "v1"
           Scenario.throttled).
  vm_compute. tauto.
Defined.

Lemma appDeploy_Ask_defaults_witness :
  let one := Scenario.appDeployDeps ["frontend"] [Scenario.testEnv] None
               ("Resources: {}", None) Scenario.id1 in
  let none := Scenario.appDeployDeps [] [] None ("Resources: {}", None)
                Scenario.id1 in
  (AppDeploy.AppName (self_of (askRun one "" "")) = "frontend"
   /\ existsb (DeployObs.isSelect "Select an application")
              (trace_of (askRun one "" "")) = false)
  /\ (AppDeploy.EnvName (self_of (askRun one "" "")) = "test"
      /\ existsb (DeployObs.isSelect "Select an environment")
                 (trace_of (askRun one "" "")) = false)
  /\ answer_of (askRun none "" "test") =
       Some (Some (errors_New "no applications found in the workspace"))
  /\ answer_of (askRun none "frontend" "") =
       Some (Some (errors_New "no environments found in project phonetool"))
  /\ (exists r, hd_error (trace_of (askRun one "" "")) =
                Some (AppDeploy.EvAppNames r)).
Proof.
  intros one none.
  pose proof (appDeploy_Ask_defaults one (Scenario.appDeployOpts "" "") tt)
    as [Happ [Henv [_ [_ Hfirst]]]].
  pose proof (appDeploy_Ask_defaults none (Scenario.appDeployOpts "" "test")
                tt) as [_ [_ [Hnoapp _]]].
  pose proof (appDeploy_Ask_defaults none
                (Scenario.appDeployOpts "frontend" "") tt)
    as [_ [_ [_ [Hnoenv _]]]].
  split; [| split; [| split; [| split]]].
  - apply (Happ "frontend"). vm_compute. tauto.
  - apply (Henv "phonetool" Scenario.testEnv). vm_compute. tauto.
  - apply Hnoapp. vm_compute. tauto.
  - apply (Hnoenv "phonetool"). vm_compute. tauto.
  - apply Hfirst. reflexivity.
Defined.

Lemma appDeploy_changeSetName_distinct_witness :
  let d1 := Scenario.appDeployDeps ["frontend"] [Scenario.testEnv] None
              ("Resources: {}", None) Scenario.id1 in
  let d2 := Scenario.appDeployDeps ["frontend"] [Scenario.testEnv] None
              ("Resources: {}", None) Scenario.id2 in
  let cs1 := "phonetool-test-frontend-123e4567-e89b-12d3-a456-426614174000" in
  let cs2 := "phonetool-test-frontend-123e4567-e89b-12d3-a456-426614174001" in
  cs1 = "phonetool-test-frontend" ++ "-" ++ uuid_String Scenario.id1
  /\ cs2 = "phonetool-test-frontend" ++ "-" ++ uuid_String Scenario.id2
  /\ (Scenario.id1 <> Scenario.id2 -> cs1 <> cs2).
Proof.
  intros d1 d2 cs1 cs2.
  pose (tags := [ (AppDeploy.ProjectTagKey, "phonetool");
                  (AppDeploy.EnvTagKey, "test");
                  (AppDeploy.AppTagKey, "frontend") ]).
  apply (appDeploy_changeSetName_distinct d1 d2
           (Scenario.appDeployOpts "frontend" "test")
           (Scenario.appDeployOpts "frontend" "test") tt tt
           Scenario.id1 Scenario.id2 "phonetool-test-frontend"
           (AppDeploy.session "env-manager") (AppDeploy.session "env-manager")
           "Resources: {}" "Resources: {}" cs1 cs2
           "arn:execution" "arn:execution" tags tags None None).
  - vm_compute. tauto.
  - vm_compute. tauto.
  - vm_compute. tauto.
  - vm_compute. tauto.
Defined.

(** C2 (fails on the code). The packaging command fails while every other
    collaborator succeeds: [Execute] drops the error of
    [getAppDeployTemplate], draws the random identifier, applies the stack
    with an empty template, resolves the endpoint and returns nil. *)
Theorem appDeploy_Execute_ignores_render_failure :
  let failure := errors_New "manifest frontend not found" in
  let d := Scenario.appDeployDeps ["frontend"] [Scenario.testEnv] None
             ("", Some failure) Scenario.id1 in
  let run := deployRun d "frontend" "test" in
  answer_of (AppDeploy.getAppDeployTemplate d (snd (fst run))) =
    Some ("", Some (fmt_Errorf_w "package application: " failure))
  /\ In (AppDeploy.EvPackageApp
           (AppDeploy.mkPackageAppVars "frontend" "test" "v1")
           (Some (AppDeploy.session "tools")) ("", Some failure))
        (trace_of run)
  /\ answer_of run = Some None
  /\ existsb DeployObs.isNewRandom (trace_of run) = true
  /\ In (AppDeploy.EvDeployApp (AppDeploy.session "env-manager") ""
           "phonetool-test-frontend"
           "phonetool-test-frontend-123e4567-e89b-12d3-a456-426614174000"
           "arn:execution"
           [ (AppDeploy.ProjectTagKey, "phonetool");
             (AppDeploy.EnvTagKey, "test");
             (AppDeploy.AppTagKey, "frontend") ] None)
        (trace_of run)
  /\ existsb DeployObs.isResolve (trace_of run) = true.
Proof.
  vm_compute. repeat split; tauto.
Qed.

(* ================================================================== *)
(** ** Further proof tools *)


Lemma forallb_map_true {A B} (P : B -> bool) (f : A -> B) (xs : list A) :
  (forall x, P (f x) = true) -> forallb P (map f xs) = true.
Proof.
  intros H. induction xs as [|x xs IH]; simpl.
  - reflexivity.
  - rewrite H, IH. reflexivity.
Qed.

Lemma substring_all (s : string) : substring 0 (String.length s) s = s.
Proof.
  induction s as [|c s IH]; simpl; [reflexivity | rewrite IH; reflexivity].
Qed.

Lemma substring_head (p s : string) :
  substring 0 (String.length p) (p ++ s) = p.
Proof.
  induction p as [|c p IH]; simpl.
  - destruct s; reflexivity.
  - rewrite IH. reflexivity.
Qed.

Lemma substring_tail (p s : string) :
  substring (String.length p) (String.length s) (p ++ s) = s.
Proof.
  induction p as [|c p IH]; simpl.
  - apply substring_all.
  - exact IH.
Qed.

Lemma length_append (p s : string) :
  String.length (p ++ s) = String.length p + String.length s.
Proof.
  induction p as [|c p IH]; simpl; [reflexivity | rewrite IH; reflexivity].
Qed.

(** [strings.TrimSuffix] takes a suffix off. *)
Lemma strings_TrimSuffix_app (p s : string) :
  strings_TrimSuffix (p ++ s) s = p.
Proof.
  unfold strings_TrimSuffix, strings_HasSuffix.
  rewrite length_append, Nat.add_sub.
  rewrite substring_tail, String.eqb_refl, substring_head.
  replace (String.length s <=? String.length p + String.length s)%nat
    with true by (symmetry; apply Nat.leb_le; lia).
  reflexivity.
Qed.

Lemma precedes_map_skip {A B} (P Q : B -> bool) (f : A -> B) (xs : list A)
      (rest : list B) :
  (forall x, P (f x) = false) -> (forall x, Q (f x) = false) ->
  precedes P Q (map f xs ++ rest) = precedes P Q rest.
Proof.
  intros HP HQ. induction xs as [|x xs IH]; simpl.
  - reflexivity.
  - rewrite HP, HQ. exact IH.
Qed.

Lemma after_first_map_skip {A B} (P : B -> bool) (f : A -> B) (xs : list A)
      (rest : list B) :
  (forall x, P (f x) = false) ->
  after_first P (map f xs ++ rest) = after_first P rest.
Proof.
  intros HP. induction xs as [|x xs IH]; simpl.
  - reflexivity.
  - rewrite HP. exact IH.
Qed.

(** Evaluate an observation on a log across a loop's reports. *)
Ltac log_skip :=
  unfold count;
  repeat (simpl;
          rewrite ?precedes_map_skip by (intros; reflexivity);
          rewrite ?after_first_map_skip by (intros; reflexivity);
          rewrite ?existsb_app, ?filter_app, ?forallb_app, ?length_app;
          rewrite ?existsb_map_false by (intros; reflexivity);
          rewrite ?filter_map_false by (intros; reflexivity);
          rewrite ?forallb_map_true by (intros; reflexivity));
  simpl.

(** [log_facts], for the logs of the validation and prompt steps too. *)
Ltac cmd_facts :=
  repeat (log_facts;
          match goal with
          | H : @eq AppInitCmd.event _ _ |- _ => inv H
          | H : @eq EnvInitCmd.event _ _ |- _ => inv H
          end);
  log_facts.

(** Point at a call in the log of a scenario. *)
Ltac log_find_vm :=
  vm_compute; solve [repeat (first [left; reflexivity | right])].

(* ================================================================== *)
(** ** [app deploy]: validation, prompts and the steps of [Execute] *)

Lemma found_In (a : string) (names : list string) :
  AppDeployCmd.found a names = true <-> In a names.
Proof.
  induction names as [|n names IH]; simpl.
  - split; [discriminate | tauto].
  - destruct (String.eqb_spec a n) as [E|E].
    + split; auto.
    + rewrite IH. split; [auto | intros [H|H]; congruence].
Qed.

Section AppDeployMore.
Import AppDeploy DeployObs AppDeployCmd.
Context {W : Type} (d : deps W).
Variable errNoProjectInWorkspace : error.
Variable HighlightUserInput : string -> string.

Local Abbreviation validateAppName :=
  (AppDeployCmd.validateAppName d HighlightUserInput).
Local Abbreviation Validate :=
  (AppDeployCmd.Validate d errNoProjectInWorkspace HighlightUserInput).
Local Abbreviation RunE :=
  (AppDeployCmd.RunE d errNoProjectInWorkspace HighlightUserInput).

Ltac run_execute :=
  let Hrun := fresh "Hrun" in
  match goal with
  | |- context [AppDeploy.Execute ?d ?s] =>
      destruct (AppDeploy.Execute d s) as [[?ans ?fin] ?tr] eqn:Hrun
  end;
  unfold AppDeploy.Execute, targetEnv, configureClients,
         getAppDockerfilePath, getAppDeployTemplate,
         applyAppDeployTemplate in Hrun;
  run_wf Hrun.

Ltac run_asking :=
  let Hrun := fresh "Hrun" in
  match goal with
  | |- context [AppDeploy.Ask ?d ?s] =>
      destruct (AppDeploy.Ask d s) as [[?ans ?fin] ?tr] eqn:Hrun
  end;
  unfold AppDeploy.Ask, askAppName, askEnvName, askImageTag in Hrun;
  run_wf Hrun.

Ltac run_validate :=
  let Hrun := fresh "Hrun" in
  match goal with
  | |- context [AppDeployCmd.Validate ?d ?e ?h ?s] =>
      destruct (AppDeployCmd.Validate d e h s) as [[?ans ?fin] ?tr] eqn:Hrun
  end;
  unfold AppDeployCmd.Validate, AppDeployCmd.validateAppName,
         AppDeployCmd.validateEnvName, targetEnv in Hrun;
  run_wf Hrun.

(** X1. When the workspace lists its applications, [validateAppName]
    answers nil exactly for a listed name; any other name gives the
    "not found in the workspace" error. *)
Theorem appDeploy_validateAppName_listed
        (o : appDeployOpts) (w : W) (names : list string) :
  fst (workspaceService_AppNames d w) = Ok names ->
  let run := validateAppName (St o w) in
  (In (AppName o) names <-> answer_of run = Some None)
  /\ (~ In (AppName o) names ->
      answer_of run =
        Some (Some (errors_New
                ("application " ++ HighlightUserInput (AppName o) ++
                 " not found in the workspace")))).
Proof.
  intros Hnames run. subst run.
  destruct (validateAppName (St o w)) as [[ans fin] tr] eqn:Hrun.
  unfold AppDeployCmd.validateAppName in Hrun. run_wf Hrun.
  all: simpl in Hnames; log_facts.
  - apply found_In in Heqb. split; [split; auto | contradiction].
  - assert (Hnot : ~ In (AppName o) names).
    { intros Hin. apply found_In in Hin. congruence. }
    split; [split; [contradiction | discriminate] | reflexivity].
Qed.

(** X2. [Validate] fails with [errNoProjectInWorkspace], without calling
    anything, when there is no project.  When it answers nil there is a
    project, a given application name was listed by the workspace and a
    given environment name was found in the store; a flag left empty is
    not checked; the options are left as they were. *)
Theorem appDeploy_Validate_sound (o : appDeployOpts) (w : W) :
  let run := Validate (St o w) in
  (ProjectName (globalOpts o) = "" ->
   answer_of run = Some (Some errNoProjectInWorkspace) /\ trace_of run = [])
  /\ (answer_of run = Some None ->
      ProjectName (globalOpts o) <> ""
      /\ (AppName o <> "" ->
          exists names,
            In (EvAppNames (Ok names)) (trace_of run)
            /\ In (AppName o) names)
      /\ (EnvName o <> "" ->
          exists env,
            In (EvGetEnvironment (ProjectName (globalOpts o)) (EnvName o)
                  (Ok env)) (trace_of run)))
  /\ (AppName o = "" -> existsb
        (fun e => match e with EvAppNames _ => true | _ => false end)
        (trace_of run) = false)
  /\ (EnvName o = "" -> existsb
        (fun e => match e with EvGetEnvironment _ _ _ => true | _ => false end)
        (trace_of run) = false)
  /\ self_of run = o.
Proof.
  intros run. subst run. run_validate.
  all: string_tests.
  all: repeat split; intros; log_facts; string_tests; simpl in *;
    try congruence; try reflexivity.
  all: try (destruct o; reflexivity).
  all: try (eexists; split; [left; reflexivity | apply found_In; assumption]).
  all: try (eexists; log_find).
Qed.

(** X3. [Ask] keeps every field that was provided; with all three
    provided it calls nothing; it never panics. *)
Theorem appDeploy_Ask_keeps_provided (o : appDeployOpts) (w : W) :
  let run := Ask d (St o w) in
  (AppName o <> "" -> AppName (self_of run) = AppName o)
  /\ (EnvName o <> "" -> EnvName (self_of run) = EnvName o)
  /\ (ImageTag o <> "" -> ImageTag (self_of run) = ImageTag o)
  /\ (AppName o <> "" -> EnvName o <> "" -> ImageTag o <> "" ->
      answer_of run = Some None /\ trace_of run = [] /\ self_of run = o)
  /\ answer_of run <> None.
Proof.
  intros run. subst run. run_asking.
  all: string_tests.
  all: repeat split; intros; simpl in *; try congruence.
  all: try (apply Nat.eqb_eq in Heqb1; destruct t as [|? [|? ?]]; discriminate).
  all: try (apply Nat.eqb_eq in Heqb2; destruct t as [|? [|? ?]]; discriminate).
  all: try (apply Nat.eqb_eq in Heqb3; destruct t0 as [|? [|? ?]]; discriminate).
Qed.

(** X4. The image tag: when [getVersionTag] succeeds its tag is taken
    and nothing is prompted for the tag; when it fails the user is
    prompted with [inputImageTagPrompt], the answer becomes the tag, and
    a failed prompt gives the wrapped error. *)
Theorem appDeploy_Ask_image_tag (o : appDeployOpts) (w : W) :
  let run := Ask d (St o w) in
  (forall tag,
      In (EvGetVersionTag (Ok tag)) (trace_of run) ->
      ImageTag o = "" /\ ImageTag (self_of run) = tag
      /\ answer_of run = Some None
      /\ existsb (fun e => match e with EvPromptGet _ _ _ => true
                                   | _ => false end) (trace_of run) = false)
  /\ (forall err,
         In (EvGetVersionTag (Fail err)) (trace_of run) ->
         exists r,
           In (EvPromptGet inputImageTagPrompt "" r) (trace_of run)
           /\ match r with
              | Ok tag => ImageTag (self_of run) = tag
                          /\ answer_of run = Some None
              | Fail e => answer_of run =
                            Some (Some (fmt_Errorf_w
                                          "prompt for image tag: " e))
                          /\ ImageTag (self_of run) = ""
              end).
Proof.
  intros run. subst run. run_asking.
  all: string_tests.
  all: split; intros; log_facts; simpl in *.
  all: try (repeat split; congruence).
  all: eexists; (split; [log_find | simpl; auto]).
Qed.


(** X6. A run of [Execute] that returns nil made exactly these calls, in
    this order: the repository lookup and the registry credentials go
    through the default session of the environment's region, the
    packaging through the default session, the stack apply through the
    session of the environment's manager role with the environment's
    execution role; the image built is the one pushed; the template
    applied is what the packaging wrote, or empty when the packaging
    failed. *)
Theorem appDeploy_Execute_success (o : appDeployOpts) (w : W) :
  let run := Execute d (St o w) in
  answer_of run = Some None ->
  exists env ecr manager tools uri manifestBytes path auth out id endpoint,
    let project := ProjectName (globalOpts o) in
    let stackName := stack_NameForApp d project (env_Name env) (AppName o) in
    manifest_UnmarshalApp d manifestBytes = Ok path
    /\ trace_of run =
       [ EvGetEnvironment project (EnvName o) (Ok env);
         EvDefaultWithRegion (env_Region env) (Ok ecr);
         EvFromRole (env_ManagerRoleARN env) (env_Region env) (Ok manager);
         EvDefault (Ok tools);
         EvGetRepository ecr (projectName (globalOpts o) ++ "/" ++ AppName o)
                         (Ok uri);
         EvReadAppManifest (AppName o) (Ok manifestBytes);
         EvBuild uri (ImageTag o) (strings_TrimSuffix path "/Dockerfile") None;
         EvGetECRAuth ecr (Ok auth);
         EvLogin uri (Username auth) (Password auth);
         EvPush uri (ImageTag o) None;
         EvPackageApp (mkPackageAppVars (AppName o) (env_Name env)
                                        (ImageTag o))
                      (Some tools) out;
         EvNewRandom (Ok id);
         EvSpinnerStart;
         EvDeployApp manager
                     (match snd out with Some _ => "" | None => fst out end)
                     stackName (changeSetName stackName id)
                     (env_ExecutionRoleARN env)
                     [ (ProjectTagKey, project); (EnvTagKey, env_Name env);
                       (AppTagKey, AppName o) ] None;
         EvSpinnerStop;
         EvNewWebAppDescriber project (AppName o) (Ok tt);
         EvURI project (AppName o) (env_Name env) (Ok endpoint) ]
    /\ targetEnvironment (self_of run) = Some env.
Proof.
  intros run. subst run. run_execute.
  all: intros; log_facts.
  all: repeat match goal with
              | u : unit |- _ => destruct u
              | p : (string * option error)%type |- _ => destruct p
              end; simpl in *; subst.
  all: do 8 eexists;
    match goal with
    | H : packageApp_Execute _ _ _ _ = (?out, _) |- _ => exists out
    end;
    do 2 eexists; split; [eassumption | split; reflexivity].
Qed.

(** X7. The error [Execute] returns names the step that failed: each
    failed call, other than the push and the packaging, comes back
    wrapped in the message of its step; after a failed stack apply the
    endpoint is not resolved. *)
Theorem appDeploy_Execute_errors_name_the_step
        (o : appDeployOpts) (w : W) :
  let run := Execute d (St o w) in
  let fails text err :=
    answer_of run = Some (Some (fmt_Errorf_w text err)) in
  (forall p e err,
      In (EvGetEnvironment p e (Fail err)) (trace_of run) ->
      fails ("get environment " ++ EnvName o ++ " from metadata store: ") err)
  /\ (forall region err,
         In (EvDefaultWithRegion region (Fail err)) (trace_of run) ->
         fails ("create ECR session with region " ++ region ++ ": ") err)
  /\ (forall role region err,
         In (EvFromRole role region (Fail err)) (trace_of run) ->
         fails "assuming environment manager role: " err)
  /\ (forall err,
         In (EvDefault (Fail err)) (trace_of run) ->
         fails "create app package CF session: " err)
  /\ (forall c n err,
         In (EvGetRepository c n (Fail err)) (trace_of run) ->
         fails "get ECR repository URI: " err)
  /\ (forall n err,
         In (EvReadAppManifest n (Fail err)) (trace_of run) ->
         fails ("read manifest file " ++ AppName o ++ ": ") err)
  /\ (forall n bytes err,
         In (EvReadAppManifest n (Ok bytes)) (trace_of run) ->
         manifest_UnmarshalApp d bytes = Fail err ->
         fails "unmarshal app manifest: " err)
  /\ (forall uri tag path err,
         In (EvBuild uri tag path (Some err)) (trace_of run) ->
         fails ("build Dockerfile at " ++ path ++ " with tag " ++ tag ++ ": ")
               err)
  /\ (forall c err,
         In (EvGetECRAuth c (Fail err)) (trace_of run) ->
         fails "get ECR auth data: " err)
  /\ (forall err,
         In (EvNewRandom (Fail err)) (trace_of run) ->
         fails "failed to generate random id for changeSet: " err)
  /\ (forall c t sn cs role tags err,
         In (EvDeployApp c t sn cs role tags (Some err)) (trace_of run) ->
         fails "deploy application: " err
         /\ existsb isResolve (trace_of run) = false)
  /\ (forall p a err,
         In (EvNewWebAppDescriber p a (Fail err)) (trace_of run) ->
         fails ("create identifier for application " ++ a ++
                " in project " ++ p ++ ": ") err)
  /\ (forall p a e err,
         In (EvURI p a e (Fail err)) (trace_of run) ->
         fails ("cannot retrieve the URI from environment " ++ EnvName o ++
                ": ") err).
Proof.
  intros run fails. subst run fails. run_execute.
  all: repeat split; intros; log_facts; simpl; congruence.
Qed.

(** X8. [Execute] stops at the first call whose error it checks: once
    such a call has failed nothing more is called but the spinner's stop,
    and an error is returned.  An error is returned only after such a
    failure, or when the manifest read could not be unmarshalled. *)
Theorem appDeploy_Execute_stops_at_first_failure
        (o : appDeployOpts) (w : W) :
  let run := Execute d (St o w) in
  (existsb failed (trace_of run) = true ->
   (exists err, answer_of run = Some (Some err))
   /\ forallb isSpinnerStop (after_first failed (trace_of run)) = true)
  /\ (forall err,
         answer_of run = Some (Some err) ->
         existsb failed (trace_of run) = true
         \/ exists n bytes e,
              In (EvReadAppManifest n (Ok bytes)) (trace_of run)
              /\ manifest_UnmarshalApp d bytes = Fail e).
Proof.
  intros run. subst run. run_execute.
  all: split; intros; try discriminate.
  all: try (split; [eexists; reflexivity | reflexivity]).
  all: try (left; reflexivity).
  all: right; do 3 eexists; split; [log_find | eassumption].
Qed.

(** X9. [getAppDockerfilePath] answers the directory of the Dockerfile:
    for a manifest whose Dockerfile path is [dir/Dockerfile] it answers
    [dir]. *)
Theorem appDeploy_getAppDockerfilePath_dir
        (o : appDeployOpts) (w : W) (manifestBytes dir : string) :
  fst (workspaceService_ReadAppManifest d (AppName o) w) = Ok manifestBytes ->
  manifest_UnmarshalApp d manifestBytes = Ok (dir ++ "/Dockerfile") ->
  answer_of (getAppDockerfilePath d (St o w)) = Some (Ok dir).
Proof.
  intros Hread Hparse.
  destruct (getAppDockerfilePath d (St o w)) as [[ans fin] tr] eqn:Hrun.
  unfold getAppDockerfilePath in Hrun. run_wf Hrun.
  all: simpl in Hread; log_facts; try congruence.
  rewrite Hparse in *. log_facts. rewrite strings_TrimSuffix_app. reflexivity.
Qed.

Lemma appDeploy_Validate_quiet (o : appDeployOpts) (w : W) :
  existsb prompts (trace_of (Validate (St o w))) = false
  /\ existsb acts (trace_of (Validate (St o w))) = false
  /\ answer_of (Validate (St o w)) <> None.
Proof.
  run_validate.
  all: repeat split; discriminate.
Qed.

Lemma appDeploy_Ask_no_acts (s : st appDeployOpts W) :
  existsb acts (trace_of (Ask d s)) = false.
Proof.
  destruct s as [o w]. run_asking.
  all: reflexivity.
Qed.

(** X10. The command runs [Validate], then [Ask], then [Execute], each
    only when the one before answered nil.  [Validate] prompts for
    nothing and neither builds, pushes nor deploys, and so does [Ask]
    with building, pushing and deploying; when [Validate] fails the
    command returns its error having called nothing more. *)
Theorem appDeploy_RunE_gates (o : appDeployOpts) (w : W) :
  let checked := Validate (St o w) in
  let run := RunE (St o w) in
  (forall err,
      answer_of checked = Some (Some err) ->
      answer_of run = Some (Some err) /\ trace_of run = trace_of checked)
  /\ (existsb prompts (trace_of run) = true ->
      answer_of checked = Some None)
  /\ (existsb acts (trace_of run) = true ->
      answer_of checked = Some None
      /\ answer_of (Ask d (snd (fst checked))) = Some None).
Proof.
  intros checked run. subst checked run.
  destruct (appDeploy_Validate_quiet o w) as [Hprompts [Hacts Hpanic]].
  unfold AppDeployCmd.RunE, bind, ret.
  destruct (Validate (St o w)) as [[[[err|]|] s1] l1];
    unfold answer_of, trace_of in *; simpl in *; try congruence.
  - rewrite app_nil_r.
    split; [intros e He; injection He as <-; auto |].
    split; intros H; congruence.
  - pose proof (appDeploy_Ask_no_acts s1) as Hask.
    destruct (Ask d s1) as [[[[err|]|] s2] l2];
      unfold answer_of, trace_of in *; simpl in *.
    + split; [discriminate |]. split; [reflexivity |].
      rewrite app_nil_r, existsb_app, Hacts, Hask. discriminate.
    + destruct (Execute d s2) as [[[[err|]|] s3] l3]; simpl;
        (split; [discriminate |]); auto.
    + split; [discriminate |]. split; [reflexivity |].
      rewrite existsb_app, Hacts, Hask. discriminate.
Qed.
End AppDeployMore.

(* ================================================================== *)
(** ** [env init]: the steps of [Execute], validation and prompts *)

Section EnvInitMore.
Import EnvInit EnvObs EnvFailures.
Context {W TabRow : Type} (d : deps W).
Variable Humanize :
  list Text -> list ResourceEvent -> list (Text * ResourceMatcher) ->
  list (Text * Z) -> list TabRow.
Variable order : list Text.

Local Abbreviation Execute := (EnvInit.Execute d Humanize order).
Local Abbreviation humanize :=
  (EnvInit.humanizeEnvironmentEvents Humanize order).

Ltac run_env_init :=
  let Hrun := fresh "Hrun" in
  match goal with
  | |- context [EnvInit.Execute ?d ?h ?ord ?s] =>
      destruct (EnvInit.Execute d h ord s) as [[?ans ?fin] ?tr] eqn:Hrun
  end;
  unfold EnvInit.Execute, delegateDNSFromProject in Hrun;
  run_wf Hrun.

(** X11. The environment is created from the options, the project and
    the caller: name, project and production flag of the options, a
    public load balancer, the root ARN of the caller's account as tools
    principal, the project's domain as DNS name.  The events are streamed
    for the very input that was applied, and only after the apply
    answered nil. *)
Theorem initEnv_Execute_input (o : initEnvOpts) (w : W) :
  let run := Execute (St o w) in
  (forall input r,
      In (EvDeployEnvironment input r) (trace_of run) ->
      exists name project caller,
        In (EvGetProject name (Ok project)) (trace_of run)
        /\ In (EvIdentityGet (Ok caller)) (trace_of run)
        /\ input = mkCreateEnvironmentInput
                     (EnvName o) (ProjectName (globalOpts o))
                     (IsProduction o) true (RootUserARN caller)
                     (proj_Domain project))
  /\ (forall input r,
         In (EvStreamEnvironmentCreation input r) (trace_of run) ->
         In (EvDeployEnvironment input None) (trace_of run)).
Proof.
  intros run. subst run. run_env_init.
  all: split; intros; log_facts.
  all: try (do 3 eexists; split; [log_find | split; [log_find | reflexivity]]).
  all: try log_find.
Qed.

(** X12. When the response read after the events carries an error,
    [Execute] returns that error as it is, and neither links the
    environment to the project nor stores it. *)
Theorem initEnv_Execute_stream_error
        (o : initEnvOpts) (w : W) (input : CreateEnvironmentInput)
        (batches : list (list ResourceEvent))
        (resp : CreateEnvironmentResponse) (err : error) :
  let run := Execute (St o w) in
  In (EvStreamEnvironmentCreation input (batches, resp)) (trace_of run) ->
  resp_Err resp = Some err ->
  answer_of run = Some (Some err)
  /\ existsb isLink (trace_of run) = false
  /\ existsb isPersist (trace_of run) = false.
Proof.
  intros run. subst run. run_env_init.
  all: intros; log_facts; simpl in *; log_calc;
    repeat split; congruence.
Qed.



(** X15. A run of [Execute] that returns nil either found the stack
    already there, or went all the way: the environment of the stream's
    response was linked to the project and then stored, once each. *)
Theorem initEnv_Execute_success (o : initEnvOpts) (w : W) :
  let run := Execute (St o w) in
  answer_of run = Some None ->
  (exists input err,
      In (EvDeployEnvironment input (Some err)) (trace_of run)
      /\ errors_As (Some err) asErrStackAlreadyExists = true)
  \/ (exists project env input batches resp,
         In (EvGetProject (ProjectName (globalOpts o)) (Ok project))
            (trace_of run)
         /\ In (EvStreamEnvironmentCreation input (batches, resp))
               (trace_of run)
         /\ resp_Err resp = None /\ resp_Env resp = Some env
         /\ In (EvAddEnvToProject project env None) (trace_of run)
         /\ In (EvCreateEnvironment env None) (trace_of run)
         /\ count isLink (trace_of run) = 1
         /\ count isPersist (trace_of run) = 1
         /\ precedes isLink isPersist (trace_of run) = true).
Proof.
  intros run. subst run. run_env_init.
  all: intros; try discriminate.
  all: try (left; do 2 eexists; split; [log_find | assumption]).
  all: right; destruct p as [batches resp]; simpl in *;
    eexists; eexists; eexists; exists batches, resp.
  all: split; [log_find |]; split; [log_find |].
  all: split; [assumption |]; split; [eassumption |].
  all: split; [simpl; do 6 right; rewrite ?in_app_iff; simpl; tauto |].
  all: split; [simpl; do 6 right; rewrite ?in_app_iff; simpl; tauto |].
  all: log_skip; repeat split; reflexivity.
Qed.

(** X16. Before anything is applied: a failed identity lookup comes back
    wrapped as "get identity", a failed lookup of the environment's
    account or a failed delegation comes back wrapped as "granting DNS
    permissions"; in each case nothing is applied. *)
Theorem initEnv_Execute_early_errors (o : initEnvOpts) (w : W) :
  let run := Execute (St o w) in
  (forall err,
      In (EvIdentityGet (Fail err)) (trace_of run) ->
      answer_of run = Some (Some (fmt_Errorf_w "get identity: " err))
      /\ existsb mutates (trace_of run) = false)
  /\ (forall err,
         In (EvEnvIdentityGet (Fail err)) (trace_of run) ->
         answer_of run =
           Some (Some (fmt_Errorf_w "granting DNS permissions: "
                   (fmt_Errorf_w
                      "getting environment account ID for DNS Delegation: "
                      err)))
         /\ existsb mutates (trace_of run) = false)
  /\ (forall project account err,
         In (EvDelegateDNSPermissions project account (Some err))
            (trace_of run) ->
         answer_of run =
           Some (Some (fmt_Errorf_w "granting DNS permissions: " err))
         /\ existsb isApply (trace_of run) = false).
Proof.
  intros run. subst run. run_env_init.
  all: repeat split; intros; log_facts; log_calc; congruence.
Qed.

(** X17. [Execute] returns an error exactly when a call answered an
    error other than "stack already exists" from the apply; after the
    first such answer it calls nothing but the spinner. *)
Theorem initEnv_Execute_stops_at_first_failure (o : initEnvOpts) (w : W) :
  let run := Execute (St o w) in
  ((exists err, answer_of run = Some (Some err)) <->
   existsb failed (trace_of run) = true)
  /\ forallb (fun e => isProgStop e || isReport e)
             (after_first failed (trace_of run)) = true.
Proof.
  intros run. subst run. run_env_init.
  all: try (destruct p as [batches resp]; simpl in *).
  all: log_skip;
    repeat match goal with
      | H : chain_As _ _ = _ |- _ => rewrite H
      | H : resp_Err _ = _ |- _ => rewrite H
      end; log_skip.
  all: split; [| reflexivity].
  all: split; intros H;
    first [ reflexivity
          | discriminate H
          | eexists; reflexivity
          | destruct H as [err Herr]; discriminate Herr ].
Qed.
End EnvInitMore.

Lemma public_not_private (s : string) :
  strings_HasPrefix s "Public" = true -> strings_HasPrefix s "Private" = false.
Proof.
  unfold strings_HasPrefix. intros H.
  destruct (String.prefix "Private" s) eqn:E; [| reflexivity].
  apply prefix_correct in H, E.
  destruct s as [|c1 [|c2 s]]; simpl in *; try discriminate.
  injection H. injection E. intros. congruence.
Qed.

(** X18. The matchers of the network, gateway, public-subnet,
    private-subnet and cluster rows exclude each other: a resource
    counted for one of these rows is counted for no other of them. *)
Theorem initEnv_matchers_exclusive
        (r : Resource) (t1 t2 : EnvInit.Text)
        (m1 m2 : EnvInit.ResourceMatcher) :
  let typed := [ EnvInit.textVPC; EnvInit.textInternetGateway;
                 EnvInit.textPublicSubnets; EnvInit.textPrivateSubnets;
                 EnvInit.textECSCluster ] in
  In t1 typed -> In t2 typed -> t1 <> t2 ->
  EnvInit.lookup EnvInit.matcher t1 = Some m1 ->
  EnvInit.lookup EnvInit.matcher t2 = Some m2 ->
  m1 r = true -> m2 r = false.
Proof.
  intros typed H1 H2 Hneq Hm1 Hm2 Hr. subst typed.
  pose proof (public_not_private (LogicalName r)) as Hprefix.
  simpl in H1, H2.
  repeat match goal with
         | H : _ \/ _ |- _ => destruct H as [H|H]
         | H : False |- _ => destruct H
         end; subst t1 t2; try congruence;
    simpl in Hm1, Hm2; injection Hm1 as <-; injection Hm2 as <-;
    repeat match goal with
      | H : _ || _ = true |- _ => apply orb_true_iff in H; destruct H as [H|H]
      | H : _ && _ = true |- _ => apply andb_true_iff in H; destruct H as [H ?]
      end;
    string_tests;
    repeat match goal with H : res_Type r = _ |- _ => rewrite H end;
    simpl;
    first [ reflexivity
          | apply Hprefix; assumption
          | destruct (strings_HasPrefix (LogicalName r) "Public");
            [ specialize (Hprefix eq_refl); congruence | reflexivity ] ].
Qed.

(* ================================================================== *)
(** ** [env init]: validation and prompts *)

Section EnvInitCmdFacts.
Import EnvInit EnvInitCmd.
Context {W : Type} (d : deps W).
Variable validateEnvironmentName : string -> option error.
Variables HighlightUserInput HighlightCode : string -> string.

Local Abbreviation Validate :=
  (EnvInitCmd.Validate (W := W) validateEnvironmentName HighlightCode).
Local Abbreviation Ask :=
  (EnvInitCmd.Ask d validateEnvironmentName HighlightUserInput HighlightCode).

(** X19. [Validate] checks a given environment name first and returns
    the validator's error even when there is no project; with no project
    it fails otherwise; when it answers nil there is a project and a given
    name passed the validator.  It calls nothing. *)
Theorem initEnv_Validate_sound (o : initEnvOpts) (w : W) :
  let run := Validate (St o w) in
  (forall err,
      EnvName o <> "" -> validateEnvironmentName (EnvName o) = Some err ->
      answer_of run = Some (Some err))
  /\ (answer_of run = Some None ->
      ProjectName (globalOpts o) <> ""
      /\ (EnvName o <> "" -> validateEnvironmentName (EnvName o) = None))
  /\ (ProjectName (globalOpts o) = "" -> exists err,
        answer_of run = Some (Some err))
  /\ trace_of run = [] /\ self_of run = o.
Proof.
  intros run. subst run.
  destruct (Validate (St o w)) as [[ans fin] tr] eqn:Hrun.
  unfold EnvInitCmd.Validate in Hrun. run_wf Hrun.
  all: string_tests.
  all: repeat split; intros; simpl in *; try congruence; eauto.
Qed.

Ltac run_env_ask :=
  let Hrun := fresh "Hrun" in
  match goal with
  | |- context [EnvInitCmd.Ask ?d ?v ?h ?c ?s] =>
      destruct (EnvInitCmd.Ask d v h c s) as [[?ans ?fin] ?tr] eqn:Hrun
  end;
  unfold EnvInitCmd.Ask, askEnvName, askEnvProfile in Hrun;
  run_wf Hrun.

(** X20. [Ask] keeps a name and a profile that were provided and calls
    nothing when both were.  Without named profiles it fails with
    [errNamedProfilesNotFound] and shows no selection; a selection is
    shown only for the non-empty list of named profiles, and its message
    carries the environment name as it stands after the name step, the
    answer of the name prompt included. *)
Theorem initEnv_Ask_profiles (o : initEnvOpts) (w : W) :
  let run := Ask (St o w) in
  (EnvName o <> "" -> EnvName (self_of run) = EnvName o)
  /\ (EnvProfile o <> "" -> EnvProfile (self_of run) = EnvProfile o)
  /\ (EnvName o <> "" -> EnvProfile o <> "" ->
      answer_of run = Some None /\ trace_of run = [])
  /\ (In (EvNames []) (trace_of run) ->
      answer_of run =
        Some (Some (errNamedProfilesNotFound HighlightCode))
      /\ existsb (fun e => match e with EvSelectOne _ _ _ _ => true
                                   | _ => false end) (trace_of run) = false)
  /\ (forall message help options r,
         In (EvSelectOne message help options r) (trace_of run) ->
         options <> [] /\ In (EvNames options) (trace_of run)
         /\ message = envInitProfilePrompt
                        (HighlightUserInput (EnvName (self_of run))))
  /\ (forall message help name,
         In (EvGet message help (Ok name)) (trace_of run) ->
         EnvName o = "" /\ EnvName (self_of run) = name).
Proof.
  intros run. subst run. run_env_ask.
  all: string_tests.
  all: repeat split; intros; cmd_facts; simpl in *; try congruence.
  all: try discriminate.
  all: try (intros ->; discriminate).
  all: try log_find.
Qed.
End EnvInitCmdFacts.

(* ================================================================== *)
(** ** [app init]: validation, prompts and the writes of [Execute] *)

Section AppInitCmdFacts.
Import AppInit AppInitCmd.
Context {W : Type} (d : AppInitCmd.deps W).
Variable errNoProjectInWorkspace : error.
Variables validateApplicationType validateApplicationName :
  string -> option error.
Variable AppTypes : list string.
Variables Emphasize HighlightUserInput : string -> string.

Local Abbreviation Validate :=
  (AppInitCmd.Validate d errNoProjectInWorkspace validateApplicationType
                       validateApplicationName).
Local Abbreviation Ask :=
  (AppInitCmd.Ask d validateApplicationName AppTypes Emphasize
                  HighlightUserInput).

(** X21. [Validate] fails with [errNoProjectInWorkspace], before looking
    at any flag, when there is no project.  When it answers nil every flag
    that was given is valid: the type and the name pass their validators
    and the Dockerfile was found by [Stat]; the file system is asked only
    about a given Dockerfile, after type and name were accepted. *)
Theorem initApp_Validate_sound (o : initAppOpts) (w : W) :
  let run := Validate (St o w) in
  (ProjectName (globalOpts o) = "" ->
   answer_of run = Some (Some errNoProjectInWorkspace) /\ trace_of run = [])
  /\ (answer_of run = Some None ->
      ProjectName (globalOpts o) <> ""
      /\ (AppType o <> "" -> validateApplicationType (AppType o) = None)
      /\ (AppName o <> "" -> validateApplicationName (AppName o) = None)
      /\ (DockerfilePath o <> "" ->
          trace_of run = [EvStat (DockerfilePath o) None]))
  /\ (forall name r,
         In (EvStat name r) (trace_of run) ->
         name = DockerfilePath o /\ name <> ""
         /\ (AppType o <> "" -> validateApplicationType (AppType o) = None)
         /\ (AppName o <> "" -> validateApplicationName (AppName o) = None)
         /\ answer_of run = Some r)
  /\ self_of run = o.
Proof.
  intros run. subst run.
  destruct (Validate (St o w)) as [[ans fin] tr] eqn:Hrun.
  unfold AppInitCmd.Validate in Hrun. run_wf Hrun.
  all: string_tests.
  all: repeat split; intros; cmd_facts; simpl in *; try congruence.
  all: try (destruct o; reflexivity).
Qed.

Ltac run_app_ask :=
  let Hrun := fresh "Hrun" in
  match goal with
  | |- context [AppInitCmd.Ask ?d ?v ?t ?e ?h ?s] =>
      destruct (AppInitCmd.Ask d v t e h s) as [[?ans ?fin] ?tr] eqn:Hrun
  end;
  unfold AppInitCmd.Ask, askAppType, askAppName, askDockerfile in Hrun;
  run_wf Hrun.

(** X22. [Ask] keeps the type, the name and the Dockerfile that were
    provided and calls nothing when all three were.  What it asks it asks
    in this order: type, name, Dockerfile; the name prompt shows the type
    as it stands after the type step and the Dockerfile prompt the name as
    it stands after the name step; the Dockerfile is selected among the
    files listed under the current directory. *)
Theorem initApp_Ask_prompts (o : initAppOpts) (w : W) :
  let run := Ask (St o w) in
  (AppType o <> "" -> AppType (self_of run) = AppType o)
  /\ (AppName o <> "" -> AppName (self_of run) = AppName o)
  /\ (DockerfilePath o <> "" ->
      DockerfilePath (self_of run) = DockerfilePath o)
  /\ (AppType o <> "" -> AppName o <> "" -> DockerfilePath o <> "" ->
      answer_of run = Some None /\ trace_of run = [])
  /\ (forall message help r,
         In (EvGet message help r) (trace_of run) ->
         AppName o = ""
         /\ message = appInitAppNamePrompt Emphasize
                        (HighlightUserInput (AppType (self_of run)))
         /\ help = appInitAppNameHelpPrompt (ProjectName (globalOpts o)))
  /\ (forall message help options r,
         In (EvSelectOne message help options r) (trace_of run) ->
         (AppType o = "" /\ options = AppTypes
          /\ message = appInitAppTypePrompt Emphasize)
         \/ (DockerfilePath o = ""
             /\ In (EvListDockerfiles "." (Ok options)) (trace_of run)
             /\ message = appInitDockerfilePrompt
                            (HighlightUserInput (AppName (self_of run)))))
  /\ (forall dir err,
         In (EvListDockerfiles dir (Fail err)) (trace_of run) ->
         answer_of run = Some (Some err))
  /\ (answer_of run = Some None ->
      (AppType o = "" ->
       exists t, In (EvSelectOne (appInitAppTypePrompt Emphasize)
                       appInitAppTypeHelpPrompt AppTypes (Ok t))
                    (trace_of run)
                 /\ AppType (self_of run) = t)
      /\ (DockerfilePath o = "" ->
          exists message options sel,
            In (EvSelectOne message appInitDockerfileHelpPrompt options
                  (Ok sel)) (trace_of run)
            /\ DockerfilePath (self_of run) = sel)).
Proof.
  intros run. subst run. run_app_ask.
  all: string_tests.
  all: repeat split; intros; cmd_facts; simpl in *; try congruence.
  all: try (left; split; [congruence | split; congruence]).
  all: try (right; split; [congruence | split; [log_find | reflexivity]]).
  all: try (eexists; split; [log_find | reflexivity]).
  all: try (do 3 eexists; split; [log_find | reflexivity]).
Qed.
End AppInitCmdFacts.

Section AppInitMore.
Import AppInit InitObs.
Context {W : Type} (d : AppInit.deps W).

Ltac run_app_init :=
  let Hrun := fresh "Hrun" in
  match goal with
  | |- context [AppInit.Execute ?d ?s] =>
      destruct (AppInit.Execute d s) as [[?ans ?fin] ?tr] eqn:Hrun
  end;
  unfold AppInit.Execute, ensureNoExistingApp, createManifest,
         createAppInProject in Hrun;
  run_wf Hrun.

(** X23. A run of [Execute] that returns nil made exactly these calls, in
    this order: the store said there is no such application, the project
    was fetched, the manifest written, the repositories added to the
    project and the application stored.  The options then hold the
    project and the manifest's path relative to the working directory. *)
Theorem initApp_Execute_success (o : initAppOpts) (w : W) :
  let run := Execute d (St o w) in
  answer_of run = Some None ->
  exists err project written wkdir relPath,
    let name := ProjectName (globalOpts o) in
    errors_As (Some err) asErrNoSuchApplication = true
    /\ filepath_Rel d wkdir written = Ok relPath
    /\ trace_of run =
       [ EvGetApplication name (AppName o) (Fail err);
         EvGetProject name (Ok project);
         EvWriteAppManifest
           (mkLBFargateManifestProps (AppName o) (DockerfilePath o)
                                     (AppName o))
           (AppName o) (Ok written);
         EvGetwd (Ok wkdir);
         EvProgStart;
         EvAddAppToProject (Some project) (AppName o) None;
         EvProgStop;
         EvCreateApplication (mkApplication name (AppName o) (AppType o))
                             None ]
    /\ manifestPath (self_of run) = relPath
    /\ proj (self_of run) = Some project.
Proof.
  intros run. subst run. run_app_init.
  all: intros; try discriminate.
  do 5 eexists. split; [eassumption |]. split; [eassumption |].
  repeat split.
Qed.

(** X24. [Execute] stops at the first call that makes it fail: nothing
    more is called but the spinner's stop, and an error is returned.  An
    error is returned only after such a call, or when the manifest's path
    cannot be made relative, in which case the manifest is written and
    neither the project nor the store is changed.  [Execute] never
    panics. *)
Theorem initApp_Execute_stops_at_first_failure (o : initAppOpts) (w : W) :
  let run := Execute d (St o w) in
  (existsb failed (trace_of run) = true ->
   (exists err, answer_of run = Some (Some err))
   /\ forallb isProgStop (after_first failed (trace_of run)) = true)
  /\ (forall err,
         answer_of run = Some (Some err) ->
         existsb failed (trace_of run) = true
         \/ exists props name written wkdir e,
              In (EvWriteAppManifest props name (Ok written)) (trace_of run)
              /\ In (EvGetwd (Ok wkdir)) (trace_of run)
              /\ filepath_Rel d wkdir written = Fail e
              /\ err = fmt_Errorf_w "relative path of manifest file: " e
              /\ count (fun e => match e with
                                 | EvAddAppToProject _ _ _ => true
                                 | EvCreateApplication _ _ => true
                                 | _ => false
                                 end) (trace_of run) = 0)
  /\ answer_of run <> None.
Proof.
  intros run. subst run. run_app_init.
  all: simpl;
    repeat match goal with H : chain_As _ _ = _ |- _ => rewrite H end; simpl.
  all: split; [| split]; intros; try discriminate.
  all: try (split; [eexists; reflexivity | reflexivity]).
  all: try (left; reflexivity).
  all: right; do 5 eexists; split; [log_find |]; split; [log_find |];
    split; [eassumption |]; split; [congruence | reflexivity].
Qed.

(** X25. What [Execute] writes: the manifest is made from the
    application's name and Dockerfile, with the name as its path, and
    written under the application's name; the repositories are added to
    the project that was fetched, after the manifest was written; the
    application stored carries the project's name and the name and type
    of the options, after the repositories were added; each of the three
    is written at most once. *)
Theorem initApp_Execute_writes (o : initAppOpts) (w : W) :
  let run := Execute d (St o w) in
  (forall props name r,
      In (EvWriteAppManifest props name r) (trace_of run) ->
      props = mkLBFargateManifestProps (AppName o) (DockerfilePath o)
                                       (AppName o)
      /\ name = AppName o)
  /\ (forall p name r,
         In (EvAddAppToProject p name r) (trace_of run) ->
         name = AppName o
         /\ (exists project,
                p = Some project
                /\ In (EvGetProject (ProjectName (globalOpts o)) (Ok project))
                      (trace_of run))
         /\ exists props written,
              In (EvWriteAppManifest props name (Ok written)) (trace_of run))
  /\ (forall app r,
         In (EvCreateApplication app r) (trace_of run) ->
         app = mkApplication (ProjectName (globalOpts o)) (AppName o)
                             (AppType o)
         /\ In (EvAddAppToProject (proj (self_of run)) (AppName o) None)
               (trace_of run))
  /\ count (fun e => match e with EvWriteAppManifest _ _ _ => true
                             | _ => false end) (trace_of run) <= 1
  /\ count (fun e => match e with EvAddAppToProject _ _ _ => true
                             | _ => false end) (trace_of run) <= 1
  /\ count (fun e => match e with EvCreateApplication _ _ => true
                             | _ => false end) (trace_of run) <= 1
  /\ precedes (fun e => match e with EvWriteAppManifest _ _ _ => true
                                | _ => false end)
              (fun e => match e with
                        | EvAddAppToProject _ _ _ => true
                        | EvCreateApplication _ _ => true
                        | _ => false
                        end) (trace_of run) = true.
Proof.
  intros run. subst run. run_app_init.
  all: repeat split; intros; log_facts; simpl; try reflexivity;
    try (unfold count; simpl; lia).
  all: try (eexists; split; [reflexivity | log_find]).
  all: try (do 2 eexists; log_find).
  all: try log_find.
Qed.
End AppInitMore.

(* ================================================================== *)
(** ** The further facts at work *)

Local Abbreviation deployOpts := (Failing.appDeployOpts "phonetool").
Local Abbreviation deployAt step :=
  (AppDeploy.Execute (Failing.appDeployDeps step)
                     (St (deployOpts "frontend" "test" "v1") tt)).
Local Abbreviation askAt step app env tag :=
  (AppDeploy.Ask (Failing.appDeployDeps step)
                 (St (deployOpts app env tag) tt)).

Lemma appDeploy_validateAppName_listed_witness :
  answer_of (AppDeployCmd.validateAppName (Failing.appDeployDeps None)
               Failing.highlight (St (deployOpts "backend" "" "") tt))
  = Some None
  /\ answer_of (AppDeployCmd.validateAppName (Failing.appDeployDeps None)
                  Failing.highlight (St (deployOpts "api" "" "") tt))
     = Some (Some (errors_New "application api not found in the workspace")).
Proof.
  split.
  - apply (proj1 (appDeploy_validateAppName_listed
                    (Failing.appDeployDeps None) Failing.highlight
                    (deployOpts "backend" "" "") tt ["frontend"; "backend"]
                    eq_refl)).
    simpl. tauto.
  - apply (proj2 (appDeploy_validateAppName_listed
                    (Failing.appDeployDeps None) Failing.highlight
                    (deployOpts "api" "" "") tt ["frontend"; "backend"]
                    eq_refl)).
    simpl. intros [H|[H|[]]]; discriminate H.
Defined.

Local Abbreviation validateAt step o :=
  (AppDeployCmd.Validate (Failing.appDeployDeps step)
     Failing.errNoProjectInWorkspace Failing.highlight (St o tt)).

Lemma appDeploy_Validate_sound_witness :
  answer_of (validateAt None (Failing.appDeployOpts "" "frontend" "test" ""))
  = Some (Some Failing.errNoProjectInWorkspace)
  /\ (exists names,
         In (AppDeploy.EvAppNames (Ok names))
            (trace_of (validateAt None (deployOpts "frontend" "test" "")))
         /\ In "frontend" names)
  /\ trace_of (validateAt None (deployOpts "" "" "")) = [].
Proof.
  split; [| split].
  - apply (proj1 (appDeploy_Validate_sound (Failing.appDeployDeps None)
                    Failing.errNoProjectInWorkspace Failing.highlight
                    (Failing.appDeployOpts "" "frontend" "test" "") tt)).
    reflexivity.
  - destruct (appDeploy_Validate_sound (Failing.appDeployDeps None)
                Failing.errNoProjectInWorkspace Failing.highlight
                (deployOpts "frontend" "test" "") tt)
      as (_ & Hnil & _).
    destruct (Hnil eq_refl) as (_ & Hname & _).
    apply Hname. discriminate.
  - destruct (appDeploy_Validate_sound (Failing.appDeployDeps None)
                Failing.errNoProjectInWorkspace Failing.highlight
                (deployOpts "" "" "") tt)
      as (_ & _ & Hnoapp & Hnoenv & _).
    pose proof (Hnoapp eq_refl) as H1. pose proof (Hnoenv eq_refl) as H2.
    reflexivity.
Defined.

Lemma appDeploy_Ask_keeps_provided_witness :
  AppDeploy.AppName (self_of (askAt None "backend" "" "")) = "backend"
  /\ AppDeploy.EnvName (self_of (askAt None "" "prod" "")) = "prod"
  /\ AppDeploy.ImageTag (self_of (askAt None "" "" "v7")) = "v7"
  /\ trace_of (askAt None "backend" "prod" "v7") = [].
Proof.
  split; [| split; [| split]].
  - apply (appDeploy_Ask_keeps_provided (Failing.appDeployDeps None)
             (deployOpts "backend" "" "") tt).
    discriminate.
  - apply (appDeploy_Ask_keeps_provided (Failing.appDeployDeps None)
             (deployOpts "" "prod" "") tt).
    discriminate.
  - apply (appDeploy_Ask_keeps_provided (Failing.appDeployDeps None)
             (deployOpts "" "" "v7") tt).
    discriminate.
  - apply (appDeploy_Ask_keeps_provided (Failing.appDeployDeps None)
             (deployOpts "backend" "prod" "v7") tt); discriminate.
Defined.

Lemma appDeploy_Ask_image_tag_witness :
  AppDeploy.ImageTag (self_of (askAt None "frontend" "test" "")) = "v1"
  /\ (exists r,
         In (AppDeploy.EvPromptGet AppDeploy.inputImageTagPrompt "" r)
            (trace_of (askAt (Some Failing.GetVersionTag)
                             "frontend" "test" ""))).
Proof.
  split.
  - apply (proj1 (appDeploy_Ask_image_tag (Failing.appDeployDeps None)
                    (deployOpts "frontend" "test" "") tt) "v1").
    log_find_vm.
  - destruct (proj2 (appDeploy_Ask_image_tag
                       (Failing.appDeployDeps (Some Failing.GetVersionTag))
                       (deployOpts "frontend" "test" "") tt)
                Scenario.throttled ltac:(log_find_vm))
      as [r [Hin _]].
    exists r. exact Hin.
Defined.

Lemma appDeploy_Execute_success_witness :
  exists env, AppDeploy.targetEnvironment (self_of (deployAt None)) = Some env.
Proof.
  destruct (appDeploy_Execute_success (Failing.appDeployDeps None)
              (deployOpts "frontend" "test" "v1") tt eq_refl)
    as (env & _ & _ & _ & _ & _ & _ & _ & _ & _ & _ & _ & _ & Henv).
  exists env. exact Henv.
Defined.

Lemma appDeploy_Execute_errors_name_the_step_witness :
  let failsWith step text :=
    answer_of (deployAt (Some step)) =
    Some (Some (fmt_Errorf_w text Scenario.throttled)) in
  failsWith Failing.GetEnvironment
            "get environment test from metadata store: "
  /\ failsWith Failing.DefaultWithRegion
               "create ECR session with region us-west-2: "
  /\ failsWith Failing.FromRole "assuming environment manager role: "
  /\ failsWith Failing.Default "create app package CF session: "
  /\ failsWith Failing.GetRepository "get ECR repository URI: "
  /\ failsWith Failing.ReadAppManifest "read manifest file frontend: "
  /\ failsWith Failing.UnmarshalApp "unmarshal app manifest: "
  /\ failsWith Failing.Build "build Dockerfile at frontend with tag v1: "
  /\ failsWith Failing.GetECRAuth "get ECR auth data: "
  /\ failsWith Failing.NewRandom
               "failed to generate random id for changeSet: "
  /\ failsWith Failing.DeployApp "deploy application: "
  /\ failsWith Failing.NewWebAppDescriber
               "create identifier for application frontend in project phonetool: "
  /\ failsWith Failing.URI
               "cannot retrieve the URI from environment test: ".
Proof.
  intros failsWith. subst failsWith.
  pose (fact step := appDeploy_Execute_errors_name_the_step
                       (Failing.appDeployDeps (Some step))
                       (deployOpts "frontend" "test" "v1") tt).
  repeat match goal with |- _ /\ _ => split end.
  - destruct (fact Failing.GetEnvironment) as (H & _).
    eapply H. log_find_vm.
  - destruct (fact Failing.DefaultWithRegion) as (_ & H & _).
    apply (H "us-west-2"). log_find_vm.
  - destruct (fact Failing.FromRole) as (_ & _ & H & _).
    eapply H. log_find_vm.
  - destruct (fact Failing.Default) as (_ & _ & _ & H & _).
    eapply H. log_find_vm.
  - destruct (fact Failing.GetRepository) as (_ & _ & _ & _ & H & _).
    eapply H. log_find_vm.
  - destruct (fact Failing.ReadAppManifest) as (_ & _ & _ & _ & _ & H & _).
    eapply H. log_find_vm.
  - destruct (fact Failing.UnmarshalApp)
      as (_ & _ & _ & _ & _ & _ & H & _).
    eapply H; [log_find | reflexivity].
  - destruct (fact Failing.Build) as (_ & _ & _ & _ & _ & _ & _ & H & _).
    apply (H "1111.dkr.ecr/phonetool/frontend" "v1" "frontend"). log_find_vm.
  - destruct (fact Failing.GetECRAuth)
      as (_ & _ & _ & _ & _ & _ & _ & _ & H & _).
    eapply H. log_find_vm.
  - destruct (fact Failing.NewRandom)
      as (_ & _ & _ & _ & _ & _ & _ & _ & _ & H & _).
    eapply H. log_find_vm.
  - destruct (fact Failing.DeployApp)
      as (_ & _ & _ & _ & _ & _ & _ & _ & _ & _ & H & _).
    eapply H. log_find_vm.
  - destruct (fact Failing.NewWebAppDescriber)
      as (_ & _ & _ & _ & _ & _ & _ & _ & _ & _ & _ & H & _).
    apply (H "phonetool" "frontend"). log_find_vm.
  - destruct (fact Failing.URI)
      as (_ & _ & _ & _ & _ & _ & _ & _ & _ & _ & _ & _ & H).
    eapply H. log_find_vm.
Defined.

Lemma appDeploy_Execute_stops_at_first_failure_witness :
  forallb AppDeployCmd.isSpinnerStop
          (after_first AppDeployCmd.failed
                       (trace_of (deployAt (Some Failing.DeployApp)))) = true
  /\ (existsb AppDeployCmd.failed
              (trace_of (deployAt (Some Failing.UnmarshalApp))) = true
      \/ exists n bytes e,
           In (AppDeploy.EvReadAppManifest n (Ok bytes))
              (trace_of (deployAt (Some Failing.UnmarshalApp)))
           /\ AppDeploy.manifest_UnmarshalApp
                (Failing.appDeployDeps (Some Failing.UnmarshalApp)) bytes
              = Fail e).
Proof.
  split.
  - apply (proj1 (appDeploy_Execute_stops_at_first_failure
                    (Failing.appDeployDeps (Some Failing.DeployApp))
                    (deployOpts "frontend" "test" "v1") tt)).
    reflexivity.
  - apply (proj2 (appDeploy_Execute_stops_at_first_failure
                    (Failing.appDeployDeps (Some Failing.UnmarshalApp))
                    (deployOpts "frontend" "test" "v1") tt)
             (fmt_Errorf_w "unmarshal app manifest: " Scenario.throttled)).
    reflexivity.
Defined.

Lemma appDeploy_getAppDockerfilePath_dir_witness :
  answer_of (AppDeploy.getAppDockerfilePath (Failing.appDeployDeps None)
               (St (deployOpts "frontend" "test" "v1") tt))
  = Some (Ok "frontend").
Proof.
  apply (appDeploy_getAppDockerfilePath_dir (Failing.appDeployDeps None)
           (deployOpts "frontend" "test" "v1") tt
           "image: frontend/Dockerfile" "frontend").
  - reflexivity.
  - reflexivity.
Defined.

Local Abbreviation runAt step o :=
  (AppDeployCmd.RunE (Failing.appDeployDeps step)
     Failing.errNoProjectInWorkspace Failing.highlight (St o tt)).

Lemma appDeploy_RunE_gates_witness :
  (answer_of (runAt None (deployOpts "api" "test" "v1")) =
     Some (Some (errors_New "application api not found in the workspace"))
   /\ trace_of (runAt None (deployOpts "api" "test" "v1")) =
        [AppDeploy.EvAppNames (Ok ["frontend"; "backend"])])
  /\ answer_of (validateAt None (deployOpts "frontend" "test" "v1"))
     = Some None.
Proof.
  split.
  - apply (proj1 (appDeploy_RunE_gates (Failing.appDeployDeps None)
                    Failing.errNoProjectInWorkspace Failing.highlight
                    (deployOpts "api" "test" "v1") tt)).
    reflexivity.
  - apply (proj2 (proj2 (appDeploy_RunE_gates (Failing.appDeployDeps None)
                    Failing.errNoProjectInWorkspace Failing.highlight
                    (deployOpts "frontend" "test" "v1") tt))).
    reflexivity.
Defined.


Local Abbreviation envAt step :=
  (EnvInit.Execute (Failing.initEnvDeps step)
     Correlator.HumanizeResourceEvents Correlator.envProgressOrder
     (St Scenario.initEnvOpts tt)).
Local Abbreviation envFact thm step :=
  (thm unit Correlator.TabRow (Failing.initEnvDeps step)
       Correlator.HumanizeResourceEvents Correlator.envProgressOrder
       Scenario.initEnvOpts tt).

Lemma initEnv_Execute_input_witness :
  (exists name project caller,
      In (EnvInit.EvGetProject name (Ok project)) (trace_of (envAt None))
      /\ In (EnvInit.EvIdentityGet (Ok caller)) (trace_of (envAt None))
      /\ Failing.input =
         mkCreateEnvironmentInput "test" "phonetool" false true
           (RootUserARN caller) (proj_Domain project))
  /\ In (EnvInit.EvDeployEnvironment Failing.input None)
        (trace_of (envAt None)).
Proof.
  split.
  - apply (proj1 (envFact (@initEnv_Execute_input) None) Failing.input None).
    log_find_vm.
  - apply (proj2 (envFact (@initEnv_Execute_input) None) Failing.input
             ([[Scenario.vpcCreated];
               [Scenario.vpcCreated; Scenario.vpcCreated]],
              mkCreateEnvironmentResponse (Some Scenario.testEnv) None)).
    log_find_vm.
Defined.

Lemma initEnv_Execute_stream_error_witness :
  answer_of (envAt (Some Failing.Stream)) = Some (Some Scenario.throttled)
  /\ existsb EnvObs.isLink (trace_of (envAt (Some Failing.Stream))) = false
  /\ existsb EnvObs.isPersist (trace_of (envAt (Some Failing.Stream)))
     = false.
Proof.
  apply (envFact (@initEnv_Execute_stream_error) (Some Failing.Stream)
           Failing.input
           [[Scenario.vpcCreated]; [Scenario.vpcCreated; Scenario.vpcCreated]]
           (mkCreateEnvironmentResponse None (Some Scenario.throttled))
           Scenario.throttled).
  - log_find_vm.
  - reflexivity.
Defined.



Lemma initEnv_Execute_success_witness :
  (exists input err,
      In (EnvInit.EvDeployEnvironment input (Some err))
         (trace_of (envAt (Some Failing.StackExists)))
      /\ errors_As (Some err) asErrStackAlreadyExists = true)
  \/ (exists env, In (EnvInit.EvCreateEnvironment env None)
                     (trace_of (envAt (Some Failing.StackExists)))).
Proof.
  destruct (envFact (@initEnv_Execute_success) (Some Failing.StackExists)
              eq_refl)
    as [H | (project & env & input & batches & resp
             & _ & _ & _ & _ & _ & H & _)].
  - left. exact H.
  - right. exists env. exact H.
Defined.

Lemma initEnv_Execute_early_errors_witness :
  answer_of (envAt (Some Failing.Identity)) =
    Some (Some (fmt_Errorf_w "get identity: " Scenario.throttled))
  /\ answer_of (envAt (Some Failing.EnvIdentity)) =
       Some (Some (fmt_Errorf_w "granting DNS permissions: "
               (fmt_Errorf_w
                  "getting environment account ID for DNS Delegation: "
                  Scenario.throttled)))
  /\ answer_of (envAt (Some Failing.Delegate)) =
       Some (Some (fmt_Errorf_w "granting DNS permissions: "
                                Scenario.throttled)).
Proof.
  split; [| split].
  - apply (proj1 (envFact (@initEnv_Execute_early_errors)
                    (Some Failing.Identity)) Scenario.throttled).
    log_find_vm.
  - apply (proj1 (proj2 (envFact (@initEnv_Execute_early_errors)
                           (Some Failing.EnvIdentity))) Scenario.throttled).
    log_find_vm.
  - apply (proj2 (proj2 (envFact (@initEnv_Execute_early_errors)
                           (Some Failing.Delegate)))
             (Scenario.phonetool true) "2222" Scenario.throttled).
    log_find_vm.
Defined.

Lemma initEnv_Execute_stops_at_first_failure_witness :
  exists err, answer_of (envAt (Some Failing.Link)) = Some (Some err).
Proof.
  apply (proj1 (envFact (@initEnv_Execute_stops_at_first_failure)
                  (Some Failing.Link))).
  reflexivity.
Defined.

Lemma initEnv_matchers_exclusive_witness :
  (fun event => (res_Type event =? "AWS::EC2::Subnet") &&
                strings_HasPrefix (LogicalName event) "Private")
    (mkResource "PublicSubnet1" "AWS::EC2::Subnet") = false.
Proof.
  apply (initEnv_matchers_exclusive
           (mkResource "PublicSubnet1" "AWS::EC2::Subnet")
           EnvInit.textPublicSubnets EnvInit.textPrivateSubnets
           (fun event => (res_Type event =? "AWS::EC2::Subnet") &&
                         strings_HasPrefix (LogicalName event) "Public")).
  - do 2 right. left. reflexivity.
  - do 3 right. left. reflexivity.
  - discriminate.
  - reflexivity.
  - reflexivity.
  - reflexivity.
Defined.

Lemma initEnv_Validate_sound_witness :
  answer_of (EnvInitCmd.Validate (W := unit) Failing.validateName
               Failing.highlight
               (St (Failing.initEnvOpts "" "bad name" "") tt))
  = Some (Some (errors_New "invalid name"))
  /\ (exists err,
         answer_of (EnvInitCmd.Validate (W := unit) Failing.validateName
                      Failing.highlight
                      (St (Failing.initEnvOpts "" "test" "") tt))
         = Some (Some err))
  /\ Failing.validateName "test" = None.
Proof.
  split; [| split].
  - apply (proj1 (initEnv_Validate_sound Failing.validateName
                    Failing.highlight
                    (Failing.initEnvOpts "" "bad name" "") tt)).
    + discriminate.
    + reflexivity.
  - apply (initEnv_Validate_sound Failing.validateName Failing.highlight
             (Failing.initEnvOpts "" "test" "") tt).
    reflexivity.
  - destruct (initEnv_Validate_sound Failing.validateName Failing.highlight
                (Failing.initEnvOpts "phonetool" "test" "") tt)
      as (_ & Hnil & _).
    apply (Hnil eq_refl). discriminate.
Defined.

Local Abbreviation envAsk profiles o :=
  (EnvInitCmd.Ask (Failing.envCmdDeps profiles) Failing.validateName
     Failing.highlight Failing.highlight (St o tt)).
Local Abbreviation envAskFact profiles o :=
  (initEnv_Ask_profiles (Failing.envCmdDeps profiles) Failing.validateName
     Failing.highlight Failing.highlight o tt).

Lemma initEnv_Ask_profiles_witness :
  EnvInit.EnvName
    (self_of (envAsk ["default"] (Failing.initEnvOpts "phonetool" "prod" "")))
  = "prod"
  /\ EnvInit.EnvProfile
       (self_of (envAsk ["default"]
                        (Failing.initEnvOpts "phonetool" "" "admin")))
     = "admin"
  /\ trace_of (envAsk [] (Failing.initEnvOpts "phonetool" "prod" "admin")) = []
  /\ answer_of (envAsk [] (Failing.initEnvOpts "phonetool" "" ""))
     = Some (Some (EnvInitCmd.errNamedProfilesNotFound Failing.highlight))
  /\ "Which named profile should we use to create test?" =
     EnvInitCmd.envInitProfilePrompt
       (Failing.highlight
          (EnvInit.EnvName
             (self_of (envAsk ["default"]
                              (Failing.initEnvOpts "phonetool" "" "")))))
  /\ EnvInit.EnvName
       (self_of (envAsk ["default"] (Failing.initEnvOpts "phonetool" "" "")))
     = "test".
Proof.
  repeat match goal with |- _ /\ _ => split end.
  - apply (envAskFact ["default"] (Failing.initEnvOpts "phonetool" "prod" "")).
    discriminate.
  - apply (envAskFact ["default"]
             (Failing.initEnvOpts "phonetool" "" "admin")).
    discriminate.
  - apply (envAskFact [] (Failing.initEnvOpts "phonetool" "prod" "admin"));
      discriminate.
  - apply (envAskFact [] (Failing.initEnvOpts "phonetool" "" "")).
    log_find_vm.
  - destruct (envAskFact ["default"] (Failing.initEnvOpts "phonetool" "" ""))
      as (_ & _ & _ & _ & Hsel & _).
    apply (Hsel "Which named profile should we use to create test?"
             EnvInitCmd.envInitProfileHelpPrompt ["default"] (Ok "default")).
    log_find_vm.
  - destruct (envAskFact ["default"] (Failing.initEnvOpts "phonetool" "" ""))
      as (_ & _ & _ & _ & _ & Hget).
    apply (Hget EnvInitCmd.envInitNamePrompt EnvInitCmd.envInitNameHelpPrompt
             "test").
    log_find_vm.
Defined.

Local Abbreviation appValidate stat o :=
  (AppInitCmd.Validate (Failing.appCmdDeps stat (Ok []))
     Failing.errNoProjectInWorkspace Failing.validateName
     Failing.validateName (St o tt)).
Local Abbreviation appValidateFact stat o :=
  (initApp_Validate_sound (Failing.appCmdDeps stat (Ok []))
     Failing.errNoProjectInWorkspace Failing.validateName
     Failing.validateName o tt).

Lemma initApp_Validate_sound_witness :
  answer_of (appValidate None
               (Failing.initAppOpts "" "bad name" "bad name" "Dockerfile"))
  = Some (Some Failing.errNoProjectInWorkspace)
  /\ trace_of (appValidate None
                 (Failing.initAppOpts "phonetool" "" "frontend" "Dockerfile"))
     = [AppInitCmd.EvStat "Dockerfile" None]
  /\ answer_of (appValidate (Some Scenario.throttled)
                  (Failing.initAppOpts "phonetool" "" "" "Dockerfile"))
     = Some (Some Scenario.throttled).
Proof.
  split; [| split].
  - apply (proj1 (appValidateFact None
                    (Failing.initAppOpts "" "bad name" "bad name"
                                         "Dockerfile"))).
    reflexivity.
  - destruct (appValidateFact None
                (Failing.initAppOpts "phonetool" "" "frontend" "Dockerfile"))
      as (_ & Hnil & _).
    apply (Hnil eq_refl). discriminate.
  - destruct (appValidateFact (Some Scenario.throttled)
                (Failing.initAppOpts "phonetool" "" "" "Dockerfile"))
      as (_ & _ & Hstat & _).
    apply (Hstat "Dockerfile" (Some Scenario.throttled)).
    log_find_vm.
Defined.

Local Abbreviation appAsk listed o :=
  (AppInitCmd.Ask (Failing.appCmdDeps None listed) Failing.validateName
     ["Load Balanced Web App"] Failing.highlight Failing.highlight (St o tt)).
Local Abbreviation appAskFact listed o :=
  (initApp_Ask_prompts (Failing.appCmdDeps None listed) Failing.validateName
     ["Load Balanced Web App"] Failing.highlight Failing.highlight o tt).

Lemma initApp_Ask_prompts_witness :
  let files := Ok ["frontend/Dockerfile"] in
  let given := Failing.initAppOpts "phonetool" "Load Balanced Web App"
                 "api" "api/Dockerfile" in
  let blank := Failing.initAppOpts "phonetool" "" "" "" in
  trace_of (appAsk files given) = []
  /\ AppInit.AppType (self_of (appAsk files given)) = "Load Balanced Web App"
  /\ AppInit.AppName (self_of (appAsk files given)) = "api"
  /\ AppInit.DockerfilePath (self_of (appAsk files given)) = "api/Dockerfile"
  /\ "What do you want to name this Load Balanced Web App?" =
     AppInitCmd.appInitAppNamePrompt Failing.highlight
       (Failing.highlight (AppInit.AppType (self_of (appAsk files blank))))
  /\ answer_of (appAsk (Fail Scenario.throttled) blank)
     = Some (Some Scenario.throttled)
  /\ (exists t, In (AppInitCmd.EvSelectOne
                      (AppInitCmd.appInitAppTypePrompt Failing.highlight)
                      AppInitCmd.appInitAppTypeHelpPrompt
                      ["Load Balanced Web App"] (Ok t))
                   (trace_of (appAsk files blank))
                /\ AppInit.AppType (self_of (appAsk files blank)) = t).
Proof.
  intros files given blank.
  destruct (appAskFact files given)
    as (Htype & Hname & Hfile & Hall & _).
  destruct (appAskFact files blank)
    as (_ & _ & _ & _ & Hget & _ & _ & Hnil).
  destruct (appAskFact (Fail Scenario.throttled) blank)
    as (_ & _ & _ & _ & _ & _ & Hlist & _).
  repeat match goal with |- _ /\ _ => split end.
  - apply Hall; discriminate.
  - apply Htype. discriminate.
  - apply Hname. discriminate.
  - apply Hfile. discriminate.
  - apply (Hget "What do you want to name this Load Balanced Web App?"
             (AppInitCmd.appInitAppNameHelpPrompt "phonetool")
             (Ok "frontend")).
    log_find_vm.
  - apply (Hlist "." Scenario.throttled). log_find_vm.
  - apply (Hnil eq_refl). reflexivity.
Defined.

Local Abbreviation initRun d :=
  (AppInit.Execute d (St Scenario.initAppOpts tt)).

Lemma initApp_Execute_success_witness :
  let d := Scenario.initAppDeps
             (Fail (ErrNoSuchApplication "phonetool" "frontend")) in
  AppInit.manifestPath (self_of (initRun d))
  = "ecs-project/frontend/manifest.yml".
Proof.
  intros d.
  destruct (initApp_Execute_success d Scenario.initAppOpts tt eq_refl)
    as (err & project & written & wkdir & relPath & _ & Hrel & _ & Hpath & _).
  rewrite Hpath. simpl in Hrel. injection Hrel as <-. reflexivity.
Defined.

Lemma initApp_Execute_stops_at_first_failure_witness :
  (exists err,
      answer_of (initRun (Scenario.initAppDeps (Ok Scenario.frontend)))
      = Some (Some err))
  /\ (existsb InitObs.failed (trace_of (initRun Failing.initAppDepsNoRel))
      = true
      \/ exists props name written wkdir e,
           In (AppInit.EvWriteAppManifest props name (Ok written))
              (trace_of (initRun Failing.initAppDepsNoRel))
           /\ In (AppInit.EvGetwd (Ok wkdir))
                 (trace_of (initRun Failing.initAppDepsNoRel))
           /\ AppInit.filepath_Rel Failing.initAppDepsNoRel wkdir written
              = Fail e
           /\ fmt_Errorf_w "relative path of manifest file: "
                (errors_New "Rel: can't make path relative") =
              fmt_Errorf_w "relative path of manifest file: " e
           /\ count (fun e => match e with
                              | AppInit.EvAddAppToProject _ _ _ => true
                              | AppInit.EvCreateApplication _ _ => true
                              | _ => false
                              end)
                    (trace_of (initRun Failing.initAppDepsNoRel)) = 0).
Proof.
  split.
  - apply (proj1 (initApp_Execute_stops_at_first_failure
                    (Scenario.initAppDeps (Ok Scenario.frontend))
                    Scenario.initAppOpts tt)).
    reflexivity.
  - apply (proj1 (proj2 (initApp_Execute_stops_at_first_failure
                           Failing.initAppDepsNoRel Scenario.initAppOpts tt))
             (fmt_Errorf_w "relative path of manifest file: "
                (errors_New "Rel: can't make path relative"))).
    reflexivity.
Defined.

Lemma initApp_Execute_writes_witness :
  let d := Scenario.initAppDeps
             (Fail (ErrNoSuchApplication "phonetool" "frontend")) in
  (exists project,
      Some (Scenario.phonetool false) = Some project
      /\ In (AppInit.EvGetProject "phonetool" (Ok project))
            (trace_of (initRun d)))
  /\ In (AppInit.EvAddAppToProject (AppInit.proj (self_of (initRun d)))
           "frontend" None) (trace_of (initRun d)).
Proof.
  intros d.
  destruct (initApp_Execute_writes d Scenario.initAppOpts tt)
    as (_ & Hadd & Hstore & _).
  split.
  - apply (Hadd (Some (Scenario.phonetool false)) "frontend" None).
    log_find_vm.
  - apply (Hstore Scenario.frontend None). log_find_vm.
Defined.
